(** * Market-data pipeline of ai-wealth: candle normaliser, market clock,
      history/intraday fetcher and live tick stream

    Shallow embedding of [src/services/chartDataService.ts] (with
    [isMarketOpen] of [src/services/apiConfig.ts]) and the properties the
    specification states about it. *)

From Stdlib Require Import ZArith QArith Lqa Bool List Sorted Permutation Lia.
From stdpp Require Import gmap strings.
Import ListNotations.

Local Open Scope Z_scope.

(** * JavaScript numbers

    A [number] of the source is an IEEE-754 double.  The code under study
    only compares numbers ([<], [>], [>=]), tests them with [isNaN], stores
    them in a [Set] and looks at the sign of one difference, so a number is
    modelled by its position on the extended rational line: not-a-number,
    the two infinities, or a finite value.  Every finite double is a
    rational; [+0] and [-0] are one value, as they are for all the operations
    above. *)
Module JsNumber.

Inductive number : Type :=
  | NaN
  | NegInf
  | Fin (q : Q)
  | PosInf.

Definition ofZ (z : Z) : number := Fin (inject_Z z).

Definition zero : number := ofZ 0.

(** [isNaN x] *)
Definition isNaN (x : number) : bool :=
  match x with NaN => true | _ => false end.

(** [Number.isFinite x]; the source never calls it, the specification talks
    about it. *)
Definition isFinite (x : number) : bool :=
  match x with Fin _ => true | _ => false end.

Definition Qltb (p q : Q) : bool := negb (Qle_bool q p).

(** [x < y]: false as soon as one side is NaN. *)
Definition lt (x y : number) : bool :=
  match x, y with
  | NaN, _ | _, NaN => false
  | NegInf, NegInf => false
  | NegInf, _ => true
  | _, NegInf => false
  | PosInf, _ => false
  | Fin _, PosInf => true
  | Fin p, Fin q => Qltb p q
  end.

(** [x > y] *)
Definition gt (x y : number) : bool := lt y x.

(** [x >= y]: false as soon as one side is NaN. *)
Definition ge (x y : number) : bool :=
  match x, y with
  | NaN, _ | _, NaN => false
  | _, _ => negb (lt x y)
  end.

(** [x <= y] *)
Definition le (x y : number) : bool := ge y x.

(** SameValueZero, the equality of [Set.prototype.has]: NaN is equal to
    itself. *)
Definition sameValueZero (x y : number) : bool :=
  match x, y with
  | NaN, NaN => true
  | NegInf, NegInf => true
  | PosInf, PosInf => true
  | Fin p, Fin q => Qeq_bool p q
  | _, _ => false
  end.

(** [x - y].  On finite operands the double result is the rounding of the
    exact difference; rounding never changes its sign (gradual underflow
    keeps a non-zero difference non-zero, overflow keeps the sign), and the
    sign is all the sort comparator is consulted for, so the exact
    difference stands for it. *)
Definition sub (x y : number) : number :=
  match x, y with
  | NaN, _ | _, NaN => NaN
  | PosInf, PosInf => NaN
  | NegInf, NegInf => NaN
  | PosInf, _ => PosInf
  | NegInf, _ => NegInf
  | Fin _, PosInf => NegInf
  | Fin _, NegInf => PosInf
  | Fin p, Fin q => Fin (p - q)
  end.

End JsNumber.

Import JsNumber.

(** * Candles and the normaliser *)
Module Candles.

(** [CandleData] of [src/types.ts]. *)
Record CandleData : Type := mkCandle {
  time : number;
  ts : string;
  open : number;
  high : number;
  low : number;
  close : number;
  volume : number;
  oi : option number
}.

(** The [Set<number>] of [deduplicateCandles], in insertion order. *)
Definition setHas (seen : list number) (x : number) : bool :=
  existsb (fun y => sameValueZero y x) seen.

(** The loop of [deduplicateCandles], with the [seen] set threaded. *)
Fixpoint dedupFrom (seen : list number) (candles : list CandleData)
  : list CandleData :=
  match candles with
  | [] => []
  | candle :: rest =>
      if setHas seen (time candle)
      then dedupFrom seen rest
      else candle :: dedupFrom (time candle :: seen) rest
  end.

Definition deduplicateCandles (candles : list CandleData) : list CandleData :=
  dedupFrom [] candles.

(** The [isValid] conjunction of [validateCandles]; the [typeof] tests hold
    by typing. *)
Definition isValid (c : CandleData) : bool :=
  negb (isNaN (open c)) && gt (open c) zero &&
  negb (isNaN (high c)) && gt (high c) zero &&
  negb (isNaN (low c)) && gt (low c) zero &&
  negb (isNaN (close c)) && gt (close c) zero &&
  negb (isNaN (volume c)) && ge (volume c) zero.

(** The predicate given to [filter] in [validateCandles]. *)
Definition keepCandle (c : CandleData) : bool :=
  if negb (isValid c) then false
  else if lt (high c) (low c) then false
  else if lt (high c) (open c) || lt (high c) (close c)
          || gt (low c) (open c) || gt (low c) (close c) then false
  else true.

Definition validateCandles (candles : list CandleData) : list CandleData :=
  List.filter keepCandle candles.

(** The comparator [(a, b) => a.time - b.time]. *)
Definition compareTime (a b : CandleData) : number := sub (time a) (time b).

(** [Array.prototype.sort] is stable and moves [b] before [a] only when the
    comparator is positive on [(a, b)]; a NaN comparator value counts as
    [+0].  It is modelled by the stable insertion sort; on a consistent
    comparator every conforming engine returns the same array. *)
Fixpoint insertCandle (x : CandleData) (sorted : list CandleData)
  : list CandleData :=
  match sorted with
  | [] => [x]
  | y :: rest =>
      if gt (compareTime x y) zero
      then y :: insertCandle x rest
      else x :: y :: rest
  end.

Definition sortCandles (candles : list CandleData) : list CandleData :=
  fold_right insertCandle [] candles.

Definition cleanChartData (candles : list CandleData) : list CandleData :=
  match candles with
  | [] => []
  | _ =>
      let cleaned := validateCandles candles in
      let cleaned := deduplicateCandles cleaned in
      sortCandles cleaned
  end.

(** ** Predicates of the specification *)

(** [low <= open <= high], [low <= close <= high] and [low <= high]. *)
Definition ohlcOrdered (c : CandleData) : Prop :=
  le (low c) (open c) = true /\ le (open c) (high c) = true /\
  le (low c) (close c) = true /\ le (close c) (high c) = true /\
  le (low c) (high c) = true.

Definition timeLt (a b : CandleData) : Prop := lt (time a) (time b) = true.

Definition timeDistinct (a b : CandleData) : Prop :=
  sameValueZero (time a) (time b) = false.

(** Strictly increasing [time]: every element is below every later one. *)
Definition strictlyIncreasing (l : list CandleData) : Prop :=
  StronglySorted timeLt l.

(** No [time] value occurs at two positions. *)
Definition noDuplicateTime (l : list CandleData) : Prop :=
  ForallOrdPairs timeDistinct l.

(** A pair in array order that the comparator does not ask to swap. *)
Definition notDescending (a b : CandleData) : Prop :=
  lt (time b) (time a) = false.

(** ** The records the validation step is said to drop *)

(** The specification's wording: a non-finite or non-positive [open],
    [high], [low] or [close], or a negative [volume]. *)
Definition nonFiniteOrNonPositive (x : number) : bool :=
  negb (isFinite x) || le x zero.

Definition rejectedBySpec (c : CandleData) : bool :=
  nonFiniteOrNonPositive (open c) || nonFiniteOrNonPositive (high c) ||
  nonFiniteOrNonPositive (low c) || nonFiniteOrNonPositive (close c) ||
  lt (volume c) zero.

(** The same with NaN in place of non-finite, for [volume] too. *)
Definition nanOrNonPositive (x : number) : bool := isNaN x || le x zero.

Definition nanOrNegative (x : number) : bool := isNaN x || lt x zero.

Definition rejectedAsInvalid (c : CandleData) : bool :=
  nanOrNonPositive (open c) || nanOrNonPositive (high c) ||
  nanOrNonPositive (low c) || nanOrNonPositive (close c) ||
  nanOrNegative (volume c).

End Candles.

Import Candles.

(** * Market clock

    Both [getLastMarketDay] and [isMarketOpen] build
    [new Date(utc + istOffset)] and read it with the local getters.  In a
    runtime zone of constant offset these getters return the UTC fields of
    [now + 5.5 h], the IST wall clock.  A [Date] is modelled by that
    millisecond count; [now] is [Date.now()]. *)
Module MarketClock.

Definition msPerDay : Z := 86400000.

(** [5.5 * 60 * 60 * 1000] *)
Definition istOffset : Z := 19800000.

Definition istTime (now : Z) : Z := now + istOffset.

(** Days since 1970-01-01 of the calendar date shown by the [Date]. *)
Definition dayNumber (t : Z) : Z := t / msPerDay.

(** [getDay()]: 0 = Sunday .. 6 = Saturday; 1970-01-01 was a Thursday. *)
Definition getDay (t : Z) : Z := (dayNumber t + 4) mod 7.

Definition getHours (t : Z) : Z := (t mod msPerDay) / 3600000.

Definition getMinutes (t : Z) : Z := (t mod 3600000) / 60000.

(** [d.setDate(d.getDate() - n)]: the same time of day, [n] days earlier. *)
Definition setDateBack (t : Z) (n : Z) : Z := t - n * msPerDay.

Definition getLastMarketDay (now : Z) : Z :=
  let istTime := istTime now in
  let dayOfWeek := getDay istTime in
  let hours := getHours istTime in
  let minutes := getMinutes istTime in
  if dayOfWeek =? 0 then setDateBack istTime 2
  else if dayOfWeek =? 6 then setDateBack istTime 1
  else if (hours <? 9) || ((hours =? 9) && (minutes <? 15)) then
    if dayOfWeek =? 1 then setDateBack istTime 3
    else setDateBack istTime 1
  else istTime.

Definition isWithinMarketHours (now : Z) : bool :=
  let istTime := istTime now in
  let dayOfWeek := getDay istTime in
  let hours := getHours istTime in
  let minutes := getMinutes istTime in
  if (dayOfWeek =? 0) || (dayOfWeek =? 6) then false
  else if (hours <? 9) || ((hours =? 9) && (minutes <? 15)) then false
  else if (hours >? 15) || ((hours =? 15) && (minutes >=? 30)) then false
  else true.

(** [isMarketOpen] of [apiConfig.ts]. *)
Definition isMarketOpen (now : Z) : bool :=
  let istTime := istTime now in
  let day := getDay istTime in
  let hours := getHours istTime in
  let minutes := getMinutes istTime in
  let timeInMinutes := hours * 60 + minutes in
  if (day =? 0) || (day =? 6) then false
  else
    let marketOpen := 9 * 60 + 15 in
    let marketClose := 15 * 60 + 30 in
    (timeInMinutes >=? marketOpen) && (timeInMinutes <=? marketClose).

(** The session opens at 09:15 IST. *)
Definition beforeOpen (t : Z) : Prop :=
  getHours t < 9 \/ (getHours t = 9 /\ getMinutes t < 15).

End MarketClock.

Import MarketClock.

(** * History / intraday fetcher

    The two [async] functions are cut at their [await]: the part that runs
    synchronously when the function is called, and the part that runs when
    the awaited [fetch] settles.  The module-level [candleCache] and
    [activeRequests] are fields of the state; the state also records what
    the environment knows: which controllers had [abort()] called, which
    calls are suspended at their [await], and every request issued. *)
Module Fetcher.

Inductive Timeframe : Type := TF_1D | TF_1W | TF_1M | TF_2M | TF_3M | TF_1Y.

Inductive CandleInterval : Type := I_1m | I_5m | I_15m | I_1h | I_1d.

Inductive ApiUnit : Type := minutes | hours | days.

Definition timeframeText (tf : Timeframe) : string :=
  match tf with
  | TF_1D => "1D" | TF_1W => "1W" | TF_1M => "1M"
  | TF_2M => "2M" | TF_3M => "3M" | TF_1Y => "1Y"
  end.

Definition intervalText (iv : CandleInterval) : string :=
  match iv with
  | I_1m => "1m" | I_5m => "5m" | I_15m => "15m" | I_1h => "1h" | I_1d => "1d"
  end.

Definition getCacheKey (instrumentKey : string) (timeframe : Timeframe)
    (interval : CandleInterval) : string :=
  (instrumentKey +:+ "|" +:+ timeframeText timeframe +:+ "|"
     +:+ intervalText interval)%string.

Record CacheEntry : Type := mkEntry {
  data : list CandleData;
  timestamp : Z
}.

Inductive Endpoint : Type := CANDLES_HISTORY | CANDLES_INTRADAY.

(** A [fetch] call: the endpoint, the query parameters and the controller
    whose signal it carries.  [reqRange] holds the instants whose ISO dates
    are sent as [from] and [to]. *)
Record Request : Type := mkRequest {
  reqEndpoint : Endpoint;
  reqInstrument : string;
  reqUnit : ApiUnit;
  reqInterval : Z;
  reqRange : option (Z * Z);
  reqLimit : Z;
  reqController : nat
}.

Record State : Type := mkState {
  candleCache : gmap string CacheEntry;
  activeRequests : gmap string nat;
  aborted : gset nat;
  suspended : gmap nat string;
  issued : list Request;
  nextController : nat
}.

Definition initial : State := mkState ∅ ∅ ∅ ∅ [] 0.

Definition CACHE_TTL : Z := 5 * 60 * 1000.

Definition withCache (f : gmap string CacheEntry -> gmap string CacheEntry)
    (st : State) : State :=
  mkState (f (candleCache st)) (activeRequests st) (aborted st)
          (suspended st) (issued st) (nextController st).

Definition withActive (f : gmap string nat -> gmap string nat)
    (st : State) : State :=
  mkState (candleCache st) (f (activeRequests st)) (aborted st)
          (suspended st) (issued st) (nextController st).

(** [controller.abort()] *)
Definition abort (controller : nat) (st : State) : State :=
  mkState (candleCache st) (activeRequests st) ({[controller]} ∪ aborted st)
          (suspended st) (issued st) (nextController st).

(** [new AbortController()] *)
Definition newController (st : State) : nat * State :=
  (nextController st,
   mkState (candleCache st) (activeRequests st) (aborted st)
           (suspended st) (issued st) (S (nextController st))).

(** [await fetch(url, { signal })]: the request leaves and the call is
    suspended, remembering the [cacheKey] of its closure. *)
Definition awaitFetch (r : Request) (cacheKey : string) (st : State) : State :=
  mkState (candleCache st) (activeRequests st) (aborted st)
          (<[reqController r := cacheKey]> (suspended st))
          (issued st ++ [r]) (nextController st).

Definition resumed (controller : nat) (st : State) : State :=
  mkState (candleCache st) (activeRequests st) (aborted st)
          (delete controller (suspended st)) (issued st) (nextController st).

Definition getCachedData (key : string) (now : Z) (st : State)
  : option (list CandleData) * State :=
  match candleCache st !! key with
  | None => (None, st)
  | Some cached =>
      let age := now - timestamp cached in
      if age >? CACHE_TTL
      then (None, withCache (delete key) st)
      else (Some (data cached), st)
  end.

Definition setCachedData (key : string) (d : list CandleData) (now : Z)
    (st : State) : State :=
  withCache (<[key := mkEntry d now]>) st.

(** The instants [fromDate] and [toDate] of [calculateDateRange]. *)
Definition calculateDateRange (timeframe : Timeframe) (now : Z) : Z * Z :=
  match timeframe with
  | TF_1D => let lastMarketDay := getLastMarketDay now in
             (lastMarketDay, lastMarketDay)
  | TF_1W => (setDateBack now 7, now)
  | TF_1M => (setDateBack now 30, now)
  | TF_2M => (setDateBack now 60, now)
  | TF_3M => (setDateBack now 90, now)
  | TF_1Y => (setDateBack now 365, now)
  end.

Definition calculateLimit (timeframe : Timeframe) (interval : CandleInterval)
  : Z :=
  match timeframe with
  | TF_1D => 500
  | TF_1W => 1500
  | TF_1M => 6000
  | TF_2M => 6000
  | TF_3M => 18000
  | TF_1Y => match interval with I_1d => 365 | _ => 18000 end
  end.

Definition intervalToApiParams (interval : CandleInterval) : ApiUnit * Z :=
  match interval with
  | I_1m => (minutes, 1)
  | I_5m => (minutes, 5)
  | I_15m => (minutes, 15)
  | I_1h => (hours, 1)
  | I_1d => (days, 1)
  end.

(** What a call has produced when control returns to the caller: the value
    of an already resolved promise, or a promise pending on the [fetch] that
    carries the given controller. *)
Inductive Outcome : Type :=
  | Returned (candles : list CandleData)
  | Awaiting (controller : nat).

(** [getCandleIntraday] up to its [await fetch]. *)
Definition getCandleIntraday (instrumentKey : string)
    (interval : CandleInterval) (forceRefresh : bool) (customLimit : Z)
    (now : Z) (st : State) : Outcome * State :=
  let cacheKey := getCacheKey instrumentKey TF_1D interval in
  let '(cached, st) :=
    if negb forceRefresh then getCachedData cacheKey now st else (None, st) in
  match cached with
  | Some cached => (Returned cached, st)
  | None =>
      let st :=
        match activeRequests st !! cacheKey with
        | Some existingController =>
            withActive (delete cacheKey) (abort existingController st)
        | None => st
        end in
      let '(controller, st) := newController st in
      let st := withActive (<[cacheKey := controller]>) st in
      let '(unit, intervalNum) := intervalToApiParams interval in
      let limit := customLimit in
      let r := mkRequest CANDLES_INTRADAY instrumentKey unit intervalNum
                         None limit controller in
      (Awaiting controller, awaitFetch r cacheKey st)
  end.

(** [getCandleHistory] up to its [await fetch]. *)
Definition getCandleHistory (instrumentKey : string) (timeframe : Timeframe)
    (interval : CandleInterval) (forceRefresh : bool)
    (now : Z) (st : State) : Outcome * State :=
  match timeframe with
  | TF_1D => getCandleIntraday instrumentKey interval forceRefresh 200 now st
  | _ =>
  let cacheKey := getCacheKey instrumentKey timeframe interval in
  let '(cached, st) :=
    if negb forceRefresh then getCachedData cacheKey now st else (None, st) in
  match cached with
  | Some cached => (Returned cached, st)
  | None =>
      let st :=
        match activeRequests st !! cacheKey with
        | Some existingController =>
            withActive (delete cacheKey) (abort existingController st)
        | None => st
        end in
      let '(controller, st) := newController st in
      let st := withActive (<[cacheKey := controller]>) st in
      let range := calculateDateRange timeframe now in
      let '(unit, intervalNum) := intervalToApiParams interval in
      let limit := calculateLimit timeframe interval in
      let r := mkRequest CANDLES_HISTORY instrumentKey unit intervalNum
                         (Some range) limit controller in
      (Awaiting controller, awaitFetch r cacheKey st)
  end
  end.

(** How the awaited [fetch] (and the [res.json()] after it) settles:
    a response with its [res.ok] flag and the candles of its body after the
    [map] to [CandleData], or a rejection (network failure, unreadable
    body). *)
Inductive Settlement : Type :=
  | Response (ok : bool) (formattedCandles : list CandleData)
  | Rejected.

(** The rest of either function, from the [await] on; the two texts are the
    same.  A [fetch] whose controller was aborted rejects with [AbortError]
    whatever the network delivered.  [None]: no call is suspended on this
    controller. *)
Definition resume (controller : nat) (s : Settlement) (now : Z) (st : State)
  : option (list CandleData * State) :=
  match suspended st !! controller with
  | None => None
  | Some cacheKey =>
      let st := resumed controller st in
      if decide (controller ∈ aborted st)
      then Some ([], withActive (delete cacheKey) st)
      else
        match s with
        | Response true formattedCandles =>
            let cleanedCandles := cleanChartData formattedCandles in
            let st := setCachedData cacheKey cleanedCandles now st in
            Some (cleanedCandles, withActive (delete cacheKey) st)
        | Response false _ => Some ([], withActive (delete cacheKey) st)
        | Rejected => Some ([], withActive (delete cacheKey) st)
        end
  end.

(** The [poll] closure of [startPollingFallback]: [None] when the market has
    closed and the poller stops instead of fetching. *)
Definition poll (instrumentKey : string) (interval : CandleInterval)
    (now : Z) (st : State) : option (Outcome * State) :=
  if negb (isWithinMarketHours now) then None
  else Some (getCandleIntraday instrumentKey interval true 500 now st).

(** What happens to the fetcher, in order: calls by the application and
    settlements of suspended fetches delivered by the event loop. *)
Inductive Action : Type :=
  | CallHistory (instrumentKey : string) (timeframe : Timeframe)
                (interval : CandleInterval) (forceRefresh : bool)
  | CallIntraday (instrumentKey : string) (interval : CandleInterval)
                 (forceRefresh : bool) (customLimit : Z)
  | Settle (controller : nat) (s : Settlement).

Definition step (now : Z) (a : Action) (st : State) : option State :=
  match a with
  | CallHistory k tf iv f => Some (snd (getCandleHistory k tf iv f now st))
  | CallIntraday k iv f lim => Some (snd (getCandleIntraday k iv f lim now st))
  | Settle c s => option_map snd (resume c s now st)
  end.

(** Runs timed actions, oldest first; [None] if one of them cannot happen. *)
Fixpoint run (trace : list (Z * Action)) (st : State) : option State :=
  match trace with
  | [] => Some st
  | (now, a) :: rest =>
      match step now a st with
      | Some st' => run rest st'
      | None => None
      end
  end.

(** The state in which a call looks at [activeRequests], and what it found
    in the cache. *)
Definition lookedUp (key : string) (forceRefresh : bool) (now : Z)
    (st : State) : option (list CandleData) * State :=
  if negb forceRefresh then getCachedData key now st else (None, st).

End Fetcher.

(** * Live tick stream

    The module-level [wsConnection], [wsReconnectAttempts] and
    [wsReconnectTimer], together with what the browser holds: the
    [WebSocket] objects created so far (their handlers close over the
    [instrumentKeys] of the call that created them), the pending timeouts,
    the frames sent and the statuses reported through
    [onConnectionChange]. *)
Module Stream.

Inductive ReadyState : Type := CONNECTING | OPEN | CLOSING | CLOSED.

Inductive Status : Type := connected | disconnected | error.

Inductive WsAction : Type := subscribe | unsubscribe.

Inductive WsMode : Type := ltpc | full.

Record WebSocketMessage : Type := mkMessage {
  action : WsAction;
  mode : WsMode;
  instrumentKeys : list string
}.

Record Socket : Type := mkSocket {
  readyState : ReadyState;
  closureKeys : list string
}.

Record Timer : Type := mkTimer {
  delay : Z;
  timerKeys : list string
}.

(** [sockets] and [timers] are indexed by creation order: [nextSocket]
    counts the [new WebSocket] calls and [nextTimer] the [setTimeout] calls
    made so far.  [timers] holds the timeouts that are still pending. *)
Record State : Type := mkState {
  wsConnection : option nat;
  wsReconnectAttempts : nat;
  wsReconnectTimer : option nat;
  sockets : gmap nat Socket;
  timers : gmap nat Timer;
  sent : list (nat * WebSocketMessage);
  statuses : list Status;
  nextSocket : nat;
  nextTimer : nat
}.

Definition initial : State := mkState None 0 None ∅ ∅ [] [] 0 0.

Definition MAX_RECONNECT_ATTEMPTS : nat := 5.

Definition setConnection (c : option nat) (st : State) : State :=
  mkState c (wsReconnectAttempts st) (wsReconnectTimer st) (sockets st)
          (timers st) (sent st) (statuses st) (nextSocket st) (nextTimer st).

Definition setAttempts (n : nat) (st : State) : State :=
  mkState (wsConnection st) n (wsReconnectTimer st) (sockets st)
          (timers st) (sent st) (statuses st) (nextSocket st) (nextTimer st).

Definition setSockets (s : gmap nat Socket) (st : State) : State :=
  mkState (wsConnection st) (wsReconnectAttempts st) (wsReconnectTimer st) s
          (timers st) (sent st) (statuses st) (nextSocket st) (nextTimer st).

(** [onConnectionChange(status)] *)
Definition onConnectionChange (s : Status) (st : State) : State :=
  mkState (wsConnection st) (wsReconnectAttempts st) (wsReconnectTimer st)
          (sockets st) (timers st) (sent st) (statuses st ++ [s])
          (nextSocket st) (nextTimer st).

(** [socket.send(JSON.stringify(message))] *)
Definition send (socket : nat) (m : WebSocketMessage) (st : State) : State :=
  mkState (wsConnection st) (wsReconnectAttempts st) (wsReconnectTimer st)
          (sockets st) (timers st) (sent st ++ [(socket, m)]) (statuses st)
          (nextSocket st) (nextTimer st).

(** [wsReconnectTimer = setTimeout(() => connectMarketWebSocket(keys, ..), d)] *)
Definition setTimeout (keys : list string) (d : Z) (st : State) : State :=
  mkState (wsConnection st) (wsReconnectAttempts st) (Some (nextTimer st))
          (sockets st) (<[nextTimer st := mkTimer d keys]> (timers st))
          (sent st) (statuses st) (nextSocket st) (S (nextTimer st)).

(** [clearTimeout(wsReconnectTimer); wsReconnectTimer = null] *)
Definition clearReconnectTimer (t : nat) (st : State) : State :=
  mkState (wsConnection st) (wsReconnectAttempts st) None
          (sockets st) (delete t (timers st))
          (sent st) (statuses st) (nextSocket st) (nextTimer st).

Definition expire (t : nat) (st : State) : State :=
  mkState (wsConnection st) (wsReconnectAttempts st) (wsReconnectTimer st)
          (sockets st) (delete t (timers st))
          (sent st) (statuses st) (nextSocket st) (nextTimer st).

(** [new WebSocket(wsUrl)] with its four handlers attached.  The URL is
    well formed for every token, so the constructor does not throw and the
    [catch] around it is not reached. *)
Definition newWebSocket (keys : list string) (st : State) : State :=
  mkState (Some (nextSocket st)) (wsReconnectAttempts st)
          (wsReconnectTimer st)
          (<[nextSocket st := mkSocket CONNECTING keys]> (sockets st))
          (timers st) (sent st) (statuses st) (S (nextSocket st))
          (nextTimer st).

Definition isOpen (st : State) (socket : nat) : bool :=
  match sockets st !! socket with
  | Some (mkSocket OPEN _) => true
  | _ => false
  end.

Definition subscribeToInstruments (instrumentKeys : list string) (st : State)
  : State :=
  match wsConnection st with
  | None => st
  | Some socket =>
      if negb (isOpen st socket) then st
      else send socket (mkMessage subscribe full instrumentKeys) st
  end.

(** [token] is what [getToken()] returns; [null] and the empty string are
    both falsy. *)
Definition connectMarketWebSocket (instrumentKeys : list string)
    (token : option string) (st : State) : State :=
  match wsConnection st with
  | Some _ => subscribeToInstruments instrumentKeys st
  | None =>
      match token with
      | None | Some EmptyString => onConnectionChange error st
      | Some _ => newWebSocket instrumentKeys st
      end
  end.

(** [Math.min(1000 * Math.pow(2, wsReconnectAttempts), 30000)] *)
Definition reconnectDelay (attempts : nat) : Z :=
  Z.min (1000 * 2 ^ Z.of_nat attempts) 30000.

(** The [onopen] handler of a socket created with [instrumentKeys]. *)
Definition onopen (instrumentKeys : list string) (st : State) : State :=
  let st := setAttempts 0 st in
  let st := onConnectionChange connected st in
  subscribeToInstruments instrumentKeys st.

(** The [onerror] handler. *)
Definition onerror (st : State) : State := onConnectionChange error st.

(** The [onclose] handler of a socket created with [instrumentKeys]. *)
Definition onclose (instrumentKeys : list string) (now : Z) (st : State)
  : State :=
  let st := setConnection None st in
  let st := onConnectionChange disconnected st in
  if isMarketOpen now
     && (wsReconnectAttempts st <? MAX_RECONNECT_ATTEMPTS)%nat
  then
    let delay := reconnectDelay (wsReconnectAttempts st) in
    let st := setAttempts (S (wsReconnectAttempts st)) st in
    setTimeout instrumentKeys delay st
  else st.

(** [socket.close()]: an open or connecting socket starts closing. *)
Definition closeSocket (socket : nat) (st : State) : State :=
  match sockets st !! socket with
  | Some (mkSocket CONNECTING keys) | Some (mkSocket OPEN keys) =>
      setSockets (<[socket := mkSocket CLOSING keys]> (sockets st)) st
  | _ => st
  end.

Definition disconnectMarketWebSocket (st : State) : State :=
  let st :=
    match wsReconnectTimer st with
    | Some t => clearReconnectTimer t st
    | None => st
    end in
  let st :=
    match wsConnection st with
    | Some socket => setConnection None (closeSocket socket st)
    | None => st
    end in
  setAttempts 0 st.

(** What happens to the stream manager, in order: calls by the application
    and events dispatched by the browser. *)
Inductive Action : Type :=
  | Connect (instrumentKeys : list string)
  | Disconnect
  | Opened (socket : nat)
  | Errored (socket : nat)
  | Closed (socket : nat)
  | TimerFired (timer : nat).

(** One action at instant [now], with [token] in storage.  The browser
    updates [readyState] before it runs a handler.  [None]: the browser
    cannot dispatch this event in this state. *)
Definition step (now : Z) (token : option string) (a : Action) (st : State)
  : option State :=
  match a with
  | Connect keys => Some (connectMarketWebSocket keys token st)
  | Disconnect => Some (disconnectMarketWebSocket st)
  | Opened socket =>
      match sockets st !! socket with
      | Some (mkSocket CONNECTING keys) =>
          Some (onopen keys
                  (setSockets (<[socket := mkSocket OPEN keys]> (sockets st))
                              st))
      | _ => None
      end
  | Errored socket =>
      match sockets st !! socket with
      | Some (mkSocket CLOSED _) | None => None
      | Some _ => Some (onerror st)
      end
  | Closed socket =>
      match sockets st !! socket with
      | Some (mkSocket CLOSED _) | None => None
      | Some (mkSocket _ keys) =>
          Some (onclose keys now
                  (setSockets
                     (<[socket := mkSocket CLOSED keys]> (sockets st)) st))
      end
  | TimerFired timer =>
      match timers st !! timer with
      | Some (mkTimer _ keys) =>
          Some (connectMarketWebSocket keys token (expire timer st))
      | None => None
      end
  end.

Fixpoint run (token : option string) (trace : list (Z * Action)) (st : State)
  : option State :=
  match trace with
  | [] => Some st
  | (now, a) :: rest =>
      match step now token a st with
      | Some st' => run token rest st'
      | None => None
      end
  end.



(** The state in which the [onclose] handler of [socket] runs. *)
Definition closedSocket (socket : nat) (keys : list string) (st : State)
  : State :=
  setSockets (<[socket := mkSocket CLOSED keys]> (sockets st)) st.

End Stream.

(** * Configuration: browser storage, auth header, market status

    [src/services/apiConfig.ts].  [localStorage] is a map from strings to
    strings; [getItem] of an absent key is [null]. *)
Module ApiConfig.

Definition CONFIGURED_REAL_BACKEND : bool := true.

Definition DEMO_STORAGE_KEY : string := "dj_ai_demo_mode".

Definition TOKEN_KEY : string := "jwt_token".

Definition isDemoMode (localStorage : gmap string string) : bool :=
  if negb CONFIGURED_REAL_BACKEND then true
  else bool_decide (localStorage !! DEMO_STORAGE_KEY = Some "true"%string).

Definition setDemoMode (enable : bool) (localStorage : gmap string string)
  : gmap string string :=
  if enable then <[DEMO_STORAGE_KEY := "true"%string]> localStorage
  else delete DEMO_STORAGE_KEY localStorage.

Definition shouldUseBackend (localStorage : gmap string string) : bool :=
  CONFIGURED_REAL_BACKEND && negb (isDemoMode localStorage).

(** [if (!token) return]: the empty string is not stored. *)
Definition setToken (token : string) (localStorage : gmap string string)
  : gmap string string :=
  match token with
  | EmptyString => localStorage
  | _ => <[TOKEN_KEY := token]> localStorage
  end.

Definition getToken (localStorage : gmap string string) : option string :=
  localStorage !! TOKEN_KEY.

Definition clearToken (localStorage : gmap string string)
  : gmap string string :=
  delete TOKEN_KEY localStorage.

Record Headers : Type := mkHeaders {
  contentType : string;
  authorization : string
}.

Definition getHeaders (localStorage : gmap string string) : Headers :=
  let token := getToken localStorage in
  mkHeaders "application/json"
    match token with
    | None | Some EmptyString => ""
    | Some t => ("Bearer " +:+ t)%string
    end.

Record MarketStatus : Type := mkStatus {
  isOpen : bool;
  message : string
}.

Definition getMarketStatus (now : Z) : MarketStatus :=
  let open := isMarketOpen now in
  if open then mkStatus true "Market Open"
  else
    let istTime := istTime now in
    let hours := getHours istTime in
    if (hours <? 9) || ((hours =? 9) && (getMinutes istTime <? 15))
    then mkStatus false "Pre-Market"
    else if ((hours >=? 15) && (getMinutes istTime >? 30)) || (hours >? 15)
    then mkStatus false "Market Closed"
    else mkStatus false "Market Closed".

End ApiConfig.

(** * Polling fallback

    [startPollingFallback] and [stopPollingFallback], with the module-level
    [pollingInterval] and [currentPollingInstrument].  The state carries the
    fetcher, the [setInterval] timers that are active (their [poll] closure
    keeps the instrument and the interval), the polls suspended at
    [await getCandleIntraday] and the lists handed to [onUpdate].  A poller
    is named by the identifier of its [setInterval] timer. *)
Module Polling.

Record State : Type := mkState {
  fetcher : Fetcher.State;
  pollingInterval : option nat;
  currentPollingInstrument : option string;
  intervals : gmap nat (string * Fetcher.CandleInterval);
  nextInterval : nat;
  polls : gmap nat nat;
  updates : list (nat * list CandleData)
}.

Definition initial : State :=
  mkState Fetcher.initial None None ∅ 0 ∅ [].

Definition setFetcher (f : Fetcher.State) (st : State) : State :=
  mkState f (pollingInterval st) (currentPollingInstrument st) (intervals st)
          (nextInterval st) (polls st) (updates st).

Definition stopPollingFallback (st : State) : State :=
  match pollingInterval st with
  | Some id =>
      mkState (fetcher st) None None (delete id (intervals st))
              (nextInterval st) (polls st) (updates st)
  | None => st
  end.

(** The [poll] closure of the poller [id], up to its [await]. *)
Definition poll (id : nat) (instrumentKey : string)
    (interval : Fetcher.CandleInterval) (now : Z) (st : State) : State :=
  if negb (isWithinMarketHours now) then stopPollingFallback st
  else
    match Fetcher.getCandleIntraday instrumentKey interval true 500 now
                                    (fetcher st) with
    | (Fetcher.Awaiting controller, f) =>
        mkState f (pollingInterval st) (currentPollingInstrument st)
                (intervals st) (nextInterval st)
                (<[controller := id]> (polls st)) (updates st)
    | (Fetcher.Returned candles, f) =>
        mkState f (pollingInterval st) (currentPollingInstrument st)
                (intervals st) (nextInterval st) (polls st)
                (updates st ++ [(id, candles)])
    end.

Definition startPollingFallback (instrumentKey : string)
    (interval : Fetcher.CandleInterval) (now : Z) (st : State) : State :=
  let st :=
    match pollingInterval st with
    | Some _ => stopPollingFallback st
    | None => st
    end in
  if negb (isWithinMarketHours now) then st
  else
    let id := nextInterval st in
    let st :=
      mkState (fetcher st) (pollingInterval st) (Some instrumentKey)
              (intervals st) (nextInterval st) (polls st) (updates st) in
    let st := poll id instrumentKey interval now st in
    mkState (fetcher st) (Some id) (currentPollingInstrument st)
            (<[id := (instrumentKey, interval)]> (intervals st))
            (S id) (polls st) (updates st).

(** A suspended fetch settles; if a poll was waiting for it, the poll goes
    on with [onUpdate(candles)]. *)
Definition settle (controller : nat) (s : Fetcher.Settlement) (now : Z)
    (st : State) : option State :=
  match Fetcher.resume controller s now (fetcher st) with
  | None => None
  | Some (candles, f) =>
      Some
        match polls st !! controller with
        | Some id =>
            mkState f (pollingInterval st) (currentPollingInstrument st)
                    (intervals st) (nextInterval st)
                    (delete controller (polls st))
                    (updates st ++ [(id, candles)])
        | None => setFetcher f st
        end
  end.

Inductive Action : Type :=
  | Start (instrumentKey : string) (interval : Fetcher.CandleInterval)
  | Stop
  | Tick (id : nat)
  | Fetch (a : Fetcher.Action).

(** One action at instant [now].  [Tick id] is the 7-second timer of the
    poller [id] firing; [None]: that timer is not active, or no call is
    suspended on the controller. *)
Definition step (now : Z) (a : Action) (st : State) : option State :=
  match a with
  | Start k iv => Some (startPollingFallback k iv now st)
  | Stop => Some (stopPollingFallback st)
  | Tick id =>
      match intervals st !! id with
      | Some (k, iv) => Some (poll id k iv now st)
      | None => None
      end
  | Fetch (Fetcher.Settle c s) => settle c s now st
  | Fetch a =>
      option_map (fun f => setFetcher f st) (Fetcher.step now a (fetcher st))
  end.

Fixpoint run (trace : list (Z * Action)) (st : State) : option State :=
  match trace with
  | [] => Some st
  | (now, a) :: rest =>
      match step now a st with
      | Some st' => run rest st'
      | None => None
      end
  end.

(** At most one timer is active, and the module variables name it. *)
Definition oneTimer (st : State) : Prop :=
  match pollingInterval st with
  | None => intervals st = ∅ /\ currentPollingInstrument st = None
  | Some id =>
      exists k iv, intervals st = {[id := (k, iv)]} /\
                   currentPollingInstrument st = Some k
  end.

End Polling.

(** * Clean-up of the whole service *)
Module Service.

(** [activeRequests.forEach(controller => controller.abort());
    activeRequests.clear()] *)
Definition abortAll (f : Fetcher.State) : Fetcher.State :=
  Fetcher.withActive (fun _ => ∅)
    (map_fold (fun _ controller f => Fetcher.abort controller f) f
              (Fetcher.activeRequests f)).

Definition cleanupChartDataService (st : Stream.State * Polling.State)
  : Stream.State * Polling.State :=
  let '(ws, ps) := st in
  let ws := Stream.disconnectMarketWebSocket ws in
  let ps := Polling.stopPollingFallback ps in
  (ws, Polling.setFetcher (abortAll (Polling.fetcher ps)) ps).

End Service.

(** * The chart view

    The parts of [src/components/AssetDetails.tsx] that drive the service:
    the choice of fetch in [loadChartData], once the instrument key is
    resolved, and the [handleTick] updater. *)
Module Chart.

Record ChartCandle : Type := mkChartCandle {
  candle : CandleData;
  date : string;
  timeDisplay : string
}.

(** The fields of a [MarketTickEvent] that [handleTick] reads; [None] is
    [undefined]. *)
Record MarketTickEvent : Type := mkTick {
  ltp : option number;
  tickHigh : option number;
  tickLow : option number;
  vol : option number
}.

Definition orKeep (new : option number) (old : number) : number :=
  match new with Some x => x | None => old end.

(** The four conditional assignments to [lastCandle]. *)
Definition applyTick (event : MarketTickEvent) (c : ChartCandle)
  : ChartCandle :=
  let d := candle c in
  mkChartCandle
    (mkCandle (time d) (ts d) (open d)
              (orKeep (tickHigh event) (high d))
              (orKeep (tickLow event) (low d))
              (orKeep (ltp event) (close d))
              (orKeep (vol event) (volume d))
              (oi d))
    (date c) (timeDisplay c).

(** The updater given to [setChartData] by [handleTick]. *)
Fixpoint handleTick (event : MarketTickEvent) (prev : list ChartCandle)
  : list ChartCandle :=
  match prev with
  | [] => []
  | [lastCandle] => [applyTick event lastCandle]
  | c :: rest => c :: handleTick event rest
  end.

(** The fetch of [loadChartData]. *)
Definition loadCandles (instrumentKey : string)
    (timeframe : Fetcher.Timeframe) (interval : Fetcher.CandleInterval)
    (forceRefresh : bool) (now : Z) (f : Fetcher.State)
  : Fetcher.Outcome * Fetcher.State :=
  let withinMarketHours := isWithinMarketHours now in
  match timeframe with
  | Fetcher.TF_1D =>
      if withinMarketHours
      then Fetcher.getCandleIntraday instrumentKey interval forceRefresh 500
                                     now f
      else Fetcher.getCandleHistory instrumentKey timeframe interval
                                    forceRefresh now f
  | _ => Fetcher.getCandleHistory instrumentKey timeframe interval
                                  forceRefresh now f
  end.

End Chart.

(** * Invariants and derived states used by the laws below *)
Module Invariants.

(** The fetcher after the "cancel any previous request" block of a call
    for [key]. *)
Definition superseded (key : string) (st : Fetcher.State) : Fetcher.State :=
  match Fetcher.activeRequests st !! key with
  | Some existing =>
      Fetcher.withActive (delete key) (Fetcher.abort existing st)
  | None => st
  end.

(** The fetcher when a call for [key] is suspended on the request [r]. *)
Definition started (key : string) (r : Fetcher.Request) (st : Fetcher.State)
  : Fetcher.State :=
  Fetcher.awaitFetch r key
    (Fetcher.withActive (<[key := Fetcher.reqController r]>)
       (snd (Fetcher.newController (superseded key st)))).

(** The parameters of the request a call sends. *)
Definition requestOf (instrumentKey : string) (timeframe : Fetcher.Timeframe)
    (interval : Fetcher.CandleInterval) (now : Z) (controller : nat)
  : Fetcher.Request :=
  match timeframe with
  | Fetcher.TF_1D =>
      Fetcher.mkRequest Fetcher.CANDLES_INTRADAY instrumentKey
        (fst (Fetcher.intervalToApiParams interval))
        (snd (Fetcher.intervalToApiParams interval)) None 200 controller
  | _ =>
      Fetcher.mkRequest Fetcher.CANDLES_HISTORY instrumentKey
        (fst (Fetcher.intervalToApiParams interval))
        (snd (Fetcher.intervalToApiParams interval))
        (Some (Fetcher.calculateDateRange timeframe now))
        (Fetcher.calculateLimit timeframe interval) controller
  end.

(** Every controller in [activeRequests] belongs to a call that is
    suspended on that key and has not been aborted. *)
Definition registryOk (st : Fetcher.State) : Prop :=
  forall key c,
    Fetcher.activeRequests st !! key = Some c ->
    Fetcher.suspended st !! c = Some key /\ c ∉ Fetcher.aborted st.

(** Controllers are numbered in creation order. *)
Definition controllersFresh (st : Fetcher.State) : Prop :=
  (forall c key, Fetcher.suspended st !! c = Some key ->
                 (c < Fetcher.nextController st)%nat) /\
  (forall c, c ∈ Fetcher.aborted st -> (c < Fetcher.nextController st)%nat).

(** Every cached series is an output of the normaliser. *)
Definition cacheNormalized (st : Fetcher.State) : Prop :=
  forall key e,
    Fetcher.candleCache st !! key = Some e ->
    exists raw, Fetcher.data e = cleanChartData raw.

(** The characters of a string, first to last. *)
Fixpoint chars (s : string) : list Ascii.ascii :=
  match s with
  | EmptyString => []
  | String a s => a :: chars s
  end.



End Invariants.

(** * Concrete inputs used by the examples below *)
Module Samples.

Definition candle (t : number) (o h l c v : Z) : CandleData :=
  mkCandle t "" (ofZ o) (ofZ h) (ofZ l) (ofZ c) (ofZ v) None.

(** Two well-formed bars; the first one came with an unparseable timestamp,
    so that [Math.floor(new Date(timestamp).getTime() / 1000)] is NaN. *)
Definition nanTimeBatch : list CandleData :=
  [candle NaN 10 12 9 11 5; candle (ofZ 5) 10 12 9 11 5].

(** A bar whose [high] is [Infinity]. *)
Definition infiniteHigh : CandleData :=
  mkCandle (ofZ 60) "" (ofZ 10) PosInf (ofZ 9) (ofZ 11) (ofZ 5) None.

(** Out of order, with a repeated time, a bar with [low > high] and a bar
    with a negative volume. *)
Definition mixedBatch : list CandleData :=
  [candle (ofZ 101) 10 12 9 11 5; candle (ofZ 100) 20 22 19 21 7;
   candle (ofZ 100) 30 32 29 31 8; candle (ofZ 102) 10 10 20 10 1;
   candle (ofZ 103) 10 12 9 11 (-5)].

(** Monday 2024-01-01, 08:00 IST (02:30 UTC). *)
Definition mondayBeforeOpen : Z := 1704076200000.

(** Monday 2024-01-01, 10:00 IST: the session is open. *)
Definition mondaySession : Z := 1704083400000.

(** Sunday 2023-12-31, 10:00 IST: the market is closed. *)
Definition sundayMorning : Z := 1703997000000.

Definition jwt : option string := Some "jwt"%string.

Definition reliance : string := "NSE_EQ|INE002A01018".

Definition infosys : string := "NSE_EQ|INE009A01021".

(** The bodies of two responses for the same cache key. *)
Definition secondBars : list CandleData := [candle (ofZ 200) 10 12 9 11 5].

Definition thirdBars : list CandleData := [candle (ofZ 300) 20 22 19 21 7].

Definition stateAfter (trace : list (Z * Stream.Action)) : Stream.State :=
  match Stream.run jwt trace Stream.initial with
  | Some st => st
  | None => Stream.initial
  end.

(** One open connection, created for [reliance] during the session. *)
Definition liveStream : Stream.State :=
  stateAfter [(mondaySession, Stream.Connect [reliance]);
              (mondaySession, Stream.Opened 0%nat)].


End Samples.

(** * Facts about numbers *)
Module NumberFacts.

Lemma Qltb_true p q : Qltb p q = true <-> (p < q)%Q.
Proof.
  unfold Qltb. rewrite negb_true_iff, <- not_true_iff_false, Qle_bool_iff.
  split; intro H; [apply Qnot_le_lt | apply Qlt_not_le]; exact H.
Qed.

Lemma Qltb_false p q : Qltb p q = false <-> (q <= p)%Q.
Proof.
  unfold Qltb. rewrite negb_false_iff. apply Qle_bool_iff.
Qed.

Lemma Qltb_sub p q : Qltb (inject_Z 0) (p - q) = Qltb q p.
Proof.
  destruct (Qltb q p) eqn:E.
  - apply Qltb_true in E. apply Qltb_true. unfold inject_Z. lra.
  - apply Qltb_false in E. apply Qltb_false. unfold inject_Z. lra.
Qed.

(** The comparator is positive on [(x, y)] exactly when [y < x]. *)
Lemma gt_sub_zero x y : gt (sub x y) zero = lt y x.
Proof.
  destruct x, y; try reflexivity. apply Qltb_sub.
Qed.

Lemma lt_irrefl x : lt x x = false.
Proof.
  destruct x; try reflexivity. apply Qltb_false, Qle_refl.
Qed.

Lemma lt_asym x y : lt x y = true -> lt y x = false.
Proof.
  destruct x, y; simpl; try congruence.
  rewrite Qltb_true, Qltb_false. apply Qlt_le_weak.
Qed.

Lemma lt_trans x y z : lt x y = true -> lt y z = true -> lt x z = true.
Proof.
  destruct x, y, z; simpl; try congruence.
  rewrite !Qltb_true. apply Qlt_trans.
Qed.

Lemma lt_not_nan x y : lt x y = true -> isNaN x = false /\ isNaN y = false.
Proof. destruct x, y; simpl; try congruence; auto. Qed.

Lemma le_of_not_lt x y :
  isNaN x = false -> isNaN y = false -> lt y x = false -> le x y = true.
Proof.
  unfold le, ge. destruct x, y; simpl; try congruence.
  intros _ _ ->. reflexivity.
Qed.

Lemma sameValueZero_refl x : sameValueZero x x = true.
Proof. destruct x; try reflexivity. apply Qeq_bool_iff, Qeq_refl. Qed.

Lemma sameValueZero_sym x y : sameValueZero x y = sameValueZero y x.
Proof.
  destruct x, y; try reflexivity. simpl.
  apply eq_true_iff_eq. rewrite !Qeq_bool_iff. split; apply Qeq_sym.
Qed.

Lemma sameValueZero_trans x y z :
  sameValueZero x y = true -> sameValueZero y z = true ->
  sameValueZero x z = true.
Proof.
  destruct x, y, z; simpl; try congruence. apply Qeq_bool_trans.
Qed.

Lemma lt_not_same x y : lt x y = true -> sameValueZero x y = false.
Proof.
  destruct x, y; simpl; try congruence.
  rewrite Qltb_true. intro H. apply not_true_iff_false.
  rewrite Qeq_bool_iff. intro E. rewrite E in H. exact (Qlt_irrefl _ H).
Qed.

(** Two numbers that are not NaN and not the same value are ordered. *)
Lemma lt_total x y :
  isNaN x = false -> isNaN y = false -> sameValueZero x y = false ->
  lt y x = false -> lt x y = true.
Proof.
  destruct x, y; simpl; try congruence.
  intros _ _ Hne Hle. apply Qltb_false in Hle. apply Qltb_true.
  apply Qle_lteq in Hle. destruct Hle as [H | H]; [exact H |].
  apply Qeq_bool_iff in H. congruence.
Qed.

End NumberFacts.

(** * Facts about the three passes of the normaliser *)
Module CandleFacts.
Import NumberFacts.

Lemma cleanChartData_eq l :
  cleanChartData l = sortCandles (deduplicateCandles (validateCandles l)).
Proof. destruct l; reflexivity. Qed.

(** ** Validation *)

Lemma keepCandle_true c :
  keepCandle c = true ->
  isValid c = true /\ lt (high c) (low c) = false /\
  lt (high c) (open c) = false /\ lt (high c) (close c) = false /\
  lt (open c) (low c) = false /\ lt (close c) (low c) = false.
Proof.
  unfold keepCandle, gt.
  destruct (isValid c); simpl; [| discriminate].
  destruct (lt (high c) (low c)); [discriminate |].
  destruct (lt (high c) (open c)); [discriminate |].
  destruct (lt (high c) (close c)); [discriminate |].
  destruct (lt (open c) (low c)); [discriminate |].
  destruct (lt (close c) (low c)); [discriminate |].
  auto 10.
Qed.

Lemma isValid_true c :
  isValid c = true ->
  (isNaN (open c) = false /\ gt (open c) zero = true) /\
  (isNaN (high c) = false /\ gt (high c) zero = true) /\
  (isNaN (low c) = false /\ gt (low c) zero = true) /\
  (isNaN (close c) = false /\ gt (close c) zero = true) /\
  (isNaN (volume c) = false /\ ge (volume c) zero = true).
Proof.
  unfold isValid. rewrite !andb_true_iff, !negb_true_iff. tauto.
Qed.

Lemma keepCandle_ohlcOrdered c : keepCandle c = true -> ohlcOrdered c.
Proof.
  intro H. apply keepCandle_true in H.
  destruct H as (Hv & Hhl & Hho & Hhc & Hol & Hcl).
  apply isValid_true in Hv.
  destruct Hv as ((No & _) & (Nh & _) & (Nl & _) & (Nc & _) & _).
  repeat split; apply le_of_not_lt; assumption.
Qed.

Lemma validateCandles_kept l :
  Forall (fun c => keepCandle c = true) (validateCandles l).
Proof.
  apply List.Forall_forall. intros c Hc. apply filter_In in Hc. tauto.
Qed.

Lemma validateCandles_id l :
  Forall (fun c => keepCandle c = true) l -> validateCandles l = l.
Proof.
  unfold validateCandles. induction 1 as [| c l Hc _ IH]; simpl.
  - reflexivity.
  - rewrite Hc, IH. reflexivity.
Qed.

(** ** Deduplication *)

Lemma dedupFrom_In seen l c :
  In c (dedupFrom seen l) -> In c l /\ setHas seen (time c) = false.
Proof.
  revert seen. induction l as [| x l IH]; simpl; intros seen H.
  - contradiction.
  - destruct (setHas seen (time x)) eqn:E.
    + apply IH in H. tauto.
    + destruct H as [<- | H]; [auto |].
      apply IH in H. destruct H as [Hin Hs]. split; [auto |].
      simpl in Hs. apply orb_false_iff in Hs. tauto.
Qed.

Lemma dedupFrom_distinct seen l : noDuplicateTime (dedupFrom seen l).
Proof.
  revert seen. induction l as [| x l IH]; simpl; intro seen.
  - constructor.
  - destruct (setHas seen (time x)); [apply IH |].
    constructor; [| apply IH].
    apply List.Forall_forall. intros c Hc. apply dedupFrom_In in Hc.
    destruct Hc as [_ Hs]. simpl in Hs. apply orb_false_iff in Hs.
    exact (proj1 Hs).
Qed.

Lemma dedupFrom_id seen l :
  noDuplicateTime l ->
  Forall (fun c => setHas seen (time c) = false) l ->
  dedupFrom seen l = l.
Proof.
  revert seen. induction l as [| x l IH]; simpl; intros seen Hd Hs.
  - reflexivity.
  - inversion Hd as [| ? ? Hx Hl]; subst.
    inversion Hs as [| ? ? Hsx Hsl]; subst.
    rewrite Hsx. f_equal. apply IH; [exact Hl |].
    apply List.Forall_forall. intros c Hc. simpl.
    rewrite List.Forall_forall in Hx, Hsl.
    rewrite (Hx c Hc), (Hsl c Hc). reflexivity.
Qed.

Lemma deduplicateCandles_id l :
  noDuplicateTime l -> deduplicateCandles l = l.
Proof.
  intro H. apply dedupFrom_id; [exact H |].
  apply List.Forall_forall. reflexivity.
Qed.

Lemma deduplicateCandles_incl l c : In c (deduplicateCandles l) -> In c l.
Proof. intro H. apply dedupFrom_In in H. tauto. Qed.

Lemma timeDistinct_sym a b : timeDistinct a b -> timeDistinct b a.
Proof. unfold timeDistinct. rewrite sameValueZero_sym. auto. Qed.

Lemma noDuplicateTime_perm l l' :
  Permutation l l' -> noDuplicateTime l -> noDuplicateTime l'.
Proof.
  unfold noDuplicateTime.
  induction 1 as [| x l l' HP IH | x y l | l l' l'' _ IH1 _ IH2]; intro H.
  - exact H.
  - inversion H; subst. constructor; [| auto].
    eapply Permutation_Forall; eauto.
  - inversion H as [| ? ? Hy Hl]; subst.
    inversion Hl as [| ? ? Hx Hl']; subst.
    inversion Hy as [| ? ? Hyx Hyl]; subst.
    constructor; [| constructor; assumption].
    constructor; [apply timeDistinct_sym; exact Hyx | exact Hx].
  - auto.
Qed.

(** ** Sorting *)

Lemma insertCandle_eq x y rest :
  insertCandle x (y :: rest) =
  if lt (time y) (time x) then y :: insertCandle x rest else x :: y :: rest.
Proof.
  cbn [insertCandle]. unfold compareTime. rewrite gt_sub_zero. reflexivity.
Qed.

Lemma insertCandle_perm x l : Permutation (insertCandle x l) (x :: l).
Proof.
  induction l as [| y l IH].
  - reflexivity.
  - rewrite insertCandle_eq. destruct (lt (time y) (time x)).
    + rewrite IH. apply perm_swap.
    + reflexivity.
Qed.

Lemma sortCandles_perm l : Permutation (sortCandles l) l.
Proof.
  induction l as [| x l IH]; simpl.
  - reflexivity.
  - rewrite insertCandle_perm. constructor. exact IH.
Qed.

Lemma insertCandle_sorted x l :
  Sorted notDescending l -> Sorted notDescending (insertCandle x l).
Proof.
  induction 1 as [| y l Hs IH Hhd].
  - repeat constructor.
  - rewrite insertCandle_eq. destruct (lt (time y) (time x)) eqn:E.
    + constructor; [exact IH |].
      destruct l as [| z l].
      * constructor. red. apply lt_asym. exact E.
      * rewrite insertCandle_eq. destruct (lt (time z) (time x)).
        -- constructor. inversion Hhd; assumption.
        -- constructor. red. apply lt_asym. exact E.
    + repeat constructor; assumption.
Qed.

Lemma sortCandles_sorted l : Sorted notDescending (sortCandles l).
Proof.
  induction l as [| x l IH]; simpl.
  - constructor.
  - apply insertCandle_sorted. exact IH.
Qed.

(** An array the comparator finds in order is left as it is. *)
Lemma sortCandles_id l : Sorted notDescending l -> sortCandles l = l.
Proof.
  induction 1 as [| x l Hs IH Hhd]; simpl.
  - reflexivity.
  - rewrite IH. destruct Hhd as [| y l Hxy]; [reflexivity |].
    rewrite insertCandle_eq. red in Hxy. rewrite Hxy. reflexivity.
Qed.

Lemma timeLt_trans : Transitive timeLt.
Proof. intros a b c. unfold timeLt. apply lt_trans. Qed.

Lemma sorted_distinct_increasing l :
  Forall (fun c => isNaN (time c) = false) l ->
  noDuplicateTime l -> Sorted notDescending l -> strictlyIncreasing l.
Proof.
  intros Hn Hd Hs. apply Sorted_StronglySorted; [exact timeLt_trans |].
  induction Hs as [| x l Hs IH Hhd].
  - constructor.
  - inversion Hn as [| ? ? Hnx Hnl]; subst.
    inversion Hd as [| ? ? Hx Hl]; subst.
    constructor; [apply IH; assumption |].
    destruct Hhd as [| y l Hxy]; constructor.
    inversion Hnl; subst. inversion Hx; subst.
    apply lt_total; assumption.
Qed.

(** ** The three passes together *)

Lemma cleanChartData_perm l :
  Permutation (cleanChartData l) (deduplicateCandles (validateCandles l)).
Proof. rewrite cleanChartData_eq. apply sortCandles_perm. Qed.

Lemma cleanChartData_In l c :
  In c (cleanChartData l) -> In c l /\ keepCandle c = true.
Proof.
  intro H. apply (Permutation_in _ (cleanChartData_perm l)) in H.
  apply deduplicateCandles_incl in H. apply filter_In in H. exact H.
Qed.

Lemma cleanChartData_kept l :
  Forall (fun c => keepCandle c = true) (cleanChartData l).
Proof.
  apply List.Forall_forall. intros c H. apply cleanChartData_In in H. tauto.
Qed.

Lemma cleanChartData_distinct l : noDuplicateTime (cleanChartData l).
Proof.
  apply (noDuplicateTime_perm _ _ (Permutation_sym (cleanChartData_perm l))).
  apply dedupFrom_distinct.
Qed.

Lemma cleanChartData_sorted l : Sorted notDescending (cleanChartData l).
Proof. rewrite cleanChartData_eq. apply sortCandles_sorted. Qed.

End CandleFacts.

(** * The normaliser: what the specification states *)
Module Normalizer.
Import NumberFacts CandleFacts Samples.

Lemma dedupFrom_covers seen l c :
  In c l ->
  setHas seen (time c) = true \/
  exists c', In c' (dedupFrom seen l) /\
             sameValueZero (time c') (time c) = true.
Proof.
  revert seen. induction l as [| x l IH]; simpl; intros seen Hin.
  - contradiction.
  - destruct (setHas seen (time x)) eqn:E.
    + destruct Hin as [<- | Hin]; [auto |].
      apply IH. exact Hin.
    + destruct Hin as [<- | Hin].
      * right. exists x. split; [left; reflexivity |].
        apply sameValueZero_refl.
      * destruct (IH (time x :: seen) Hin) as [Hs | (c' & Hc' & Hsame)].
        -- simpl in Hs. apply orb_true_iff in Hs. destruct Hs as [Hs | Hs].
           ++ right. exists x. split; [left; reflexivity | exact Hs].
           ++ left. exact Hs.
        -- right. exists c'. split; [right; exact Hc' | exact Hsame].
Qed.

Lemma rejectedAsInvalid_not_valid c :
  rejectedAsInvalid c = true -> isValid c = false.
Proof.
  unfold rejectedAsInvalid, nanOrNonPositive, nanOrNegative, isValid, gt, le,
    ge, zero, ofZ.
  destruct (open c), (high c), (low c), (close c), (volume c); simpl;
    try reflexivity; try discriminate;
    repeat match goal with
           | |- context [Qltb ?a ?b] => destruct (Qltb a b)
           end; simpl; try reflexivity; try discriminate.
Qed.

(** The first record of a repeated [time] wins, records with [low > high]
    or a negative volume go, and the rest comes out in time order. *)
Lemma cleanChartData_mixedBatch :
  cleanChartData mixedBatch
  = [candle (ofZ 100) 20 22 19 21 7; candle (ofZ 101) 10 12 9 11 5].
Proof. vm_compute. reflexivity. Qed.

(** C2, as the code has it: for every input list the output of
    [cleanChartData] contains no duplicate [time] value and every element
    satisfies [low <= open <= high], [low <= close <= high] and
    [low <= high]; when no record that passes validation has a NaN [time],
    the [time] values of the output are strictly increasing as well. *)
Theorem cleanChartData_invariant (l : list CandleData) :
  noDuplicateTime (cleanChartData l) /\
  Forall ohlcOrdered (cleanChartData l) /\
  (Forall (fun c => keepCandle c = true -> isNaN (time c) = false) l ->
   strictlyIncreasing (cleanChartData l)).
Proof.
  split; [apply cleanChartData_distinct |]. split.
  - eapply List.Forall_impl; [| apply cleanChartData_kept].
    intros c. apply keepCandle_ohlcOrdered.
  - intro Hn. apply sorted_distinct_increasing.
    + apply List.Forall_forall. intros c Hc.
      apply cleanChartData_In in Hc. destruct Hc as [Hin Hk].
      rewrite List.Forall_forall in Hn. exact (Hn c Hin Hk).
    + apply cleanChartData_distinct.
    + apply cleanChartData_sorted.
Qed.

Lemma cleanChartData_invariant_witness :
  Forall (fun c => keepCandle c = true -> isNaN (time c) = false) mixedBatch /\
  strictlyIncreasing (cleanChartData mixedBatch).
Proof.
  assert (H : Forall (fun c => keepCandle c = true -> isNaN (time c) = false)
                     mixedBatch)
    by (repeat constructor).
  split; [exact H |].
  exact (proj2 (proj2 (cleanChartData_invariant mixedBatch)) H).
Defined.

(** C2 as stated fails: a record that comes with a NaN [time] passes
    validation, and the output is then not strictly increasing. *)
Lemma cleanChartData_nan_time_not_increasing :
  ~ (strictlyIncreasing (cleanChartData nanTimeBatch) /\
     noDuplicateTime (cleanChartData nanTimeBatch) /\
     Forall ohlcOrdered (cleanChartData nanTimeBatch)).
Proof.
  intros [H _]. vm_compute in H.
  inversion H as [| ? ? _ Hhd]; subst.
  inversion Hhd as [| ? ? Hlt _]; subst.
  discriminate Hlt.
Qed.

(** Whatever order the engine's sort leaves the two records in, it is not
    strictly increasing. *)
Lemma nanTimeBatch_never_increasing (l : list CandleData) :
  Permutation nanTimeBatch l -> ~ strictlyIncreasing l.
Proof.
  intros HP Hs.
  assert (Hlen := Permutation_length HP).
  destruct l as [| a [| b [| ? ?]]]; try discriminate Hlen.
  inversion Hs as [| ? ? _ Hhd]; subst.
  inversion Hhd as [| ? ? Hlt _]; subst.
  apply lt_not_nan in Hlt. destruct Hlt as [Ha Hb].
  assert (Hin : In (candle NaN 10 12 9 11 5) [a; b])
    by (apply (Permutation_in _ HP); left; reflexivity).
  destruct Hin as [E | [E | []]]; subst; discriminate.
Qed.

(** C8, as the code has it: every record with a NaN or non-positive
    [open], [high], [low] or [close], or a NaN or negative [volume], is
    absent from the output of [cleanChartData]; and a record that passes
    validation is kept by [validateCandles] and has its [time] in the
    output, whatever else the batch contains. *)
Theorem cleanChartData_drops_invalid (l : list CandleData) (c : CandleData) :
  (rejectedAsInvalid c = true -> ~ In c (cleanChartData l)) /\
  (In c l -> keepCandle c = true ->
   In c (validateCandles l) /\
   exists c', In c' (cleanChartData l) /\
              sameValueZero (time c') (time c) = true).
Proof.
  split.
  - intros Hr Hin. apply cleanChartData_In in Hin. destruct Hin as [_ Hk].
    apply keepCandle_true in Hk. apply rejectedAsInvalid_not_valid in Hr.
    destruct Hk as [Hv _]. congruence.
  - intros Hin Hk.
    assert (Hv : In c (validateCandles l)) by (apply filter_In; auto).
    split; [exact Hv |].
    destruct (dedupFrom_covers [] _ _ Hv) as [Hs | (c' & Hc' & Hsame)].
    + discriminate Hs.
    + exists c'. split; [| exact Hsame].
      apply (Permutation_in _ (Permutation_sym (cleanChartData_perm l))).
      exact Hc'.
Qed.

Lemma cleanChartData_drops_invalid_witness :
  ~ In (candle (ofZ 103) 10 12 9 11 (-5)) (cleanChartData mixedBatch) /\
  In (candle (ofZ 101) 10 12 9 11 5) (validateCandles mixedBatch).
Proof.
  split.
  - apply (proj1 (cleanChartData_drops_invalid mixedBatch _)). reflexivity.
  - apply (proj2 (cleanChartData_drops_invalid mixedBatch _)).
    + left. reflexivity.
    + reflexivity.
Defined.

(** C8 as stated fails: a record whose [high] is [Infinity] has a
    non-finite field and is kept. *)
Lemma cleanChartData_keeps_infinite_high :
  rejectedBySpec infiniteHigh = true /\
  In infiniteHigh (cleanChartData [infiniteHigh]).
Proof. split; [reflexivity | left; reflexivity]. Qed.


End Normalizer.

(** * The market clock: what the specification states *)
Module MarketClockSpec.
Import Samples.

Lemma dayNumber_setDateBack t n :
  dayNumber (setDateBack t n) = dayNumber t - n.
Proof.
  unfold dayNumber, setDateBack, msPerDay.
  replace (t - n * 86400000) with (t + (- n) * 86400000) by lia.
  rewrite Z.div_add by lia. lia.
Qed.

Lemma getDay_setDateBack t n :
  getDay (setDateBack t n) = (getDay t - n) mod 7.
Proof.
  unfold getDay. rewrite dayNumber_setDateBack.
  replace (dayNumber t - n + 4) with ((dayNumber t + 4) - n) by lia.
  rewrite Zminus_mod_idemp_l. reflexivity.
Qed.

Lemma beforeOpen_test t :
  beforeOpen t ->
  (getHours t <? 9) || ((getHours t =? 9) && (getMinutes t <? 15)) = true.
Proof.
  intros [H | [H1 H2]].
  - apply Z.ltb_lt in H. rewrite H. reflexivity.
  - apply Z.eqb_eq in H1. apply Z.ltb_lt in H2. rewrite H1, H2.
    apply orb_true_r.
Qed.

(** C7: on a Monday before the 09:15 IST open [getLastMarketDay] returns the
    date three days back, a Friday; on a Saturday the previous day, on a
    Sunday the date two days back, both Fridays; on a Tuesday to Friday
    before the open the previous day. *)
Theorem getLastMarketDay_rollback (now : Z) :
  let today := istTime now in
  let last := getLastMarketDay now in
  (getDay today = 1 -> beforeOpen today ->
   dayNumber last = dayNumber today - 3 /\ getDay last = 5) /\
  (getDay today = 6 ->
   dayNumber last = dayNumber today - 1 /\ getDay last = 5) /\
  (getDay today = 0 ->
   dayNumber last = dayNumber today - 2 /\ getDay last = 5) /\
  (2 <= getDay today <= 5 -> beforeOpen today ->
   dayNumber last = dayNumber today - 1 /\ getDay last = getDay today - 1).
Proof.
  intros today last. subst last. unfold getLastMarketDay. fold today.
  split; [| split; [| split]].
  - intros Hmon Hpre. rewrite Hmon. simpl.
    rewrite (beforeOpen_test _ Hpre).
    rewrite getDay_setDateBack, dayNumber_setDateBack, Hmon. auto.
  - intros Hsat. rewrite Hsat. simpl.
    rewrite getDay_setDateBack, dayNumber_setDateBack, Hsat. auto.
  - intros Hsun. rewrite Hsun. simpl.
    rewrite getDay_setDateBack, dayNumber_setDateBack, Hsun. auto.
  - intros [Hlo Hhi] Hpre.
    replace (getDay today =? 0) with false by (symmetry; apply Z.eqb_neq; lia).
    replace (getDay today =? 6) with false by (symmetry; apply Z.eqb_neq; lia).
    replace (getDay today =? 1) with false by (symmetry; apply Z.eqb_neq; lia).
    rewrite (beforeOpen_test _ Hpre).
    rewrite getDay_setDateBack, dayNumber_setDateBack.
    split; [reflexivity | apply Z.mod_small; lia].
Qed.

Lemma getLastMarketDay_rollback_witness :
  getDay (istTime mondayBeforeOpen) = 1 /\
  beforeOpen (istTime mondayBeforeOpen) /\
  dayNumber (getLastMarketDay mondayBeforeOpen)
    = dayNumber (istTime mondayBeforeOpen) - 3 /\
  getDay (getLastMarketDay mondayBeforeOpen) = 5.
Proof.
  assert (Hd : getDay (istTime mondayBeforeOpen) = 1) by reflexivity.
  assert (Hb : beforeOpen (istTime mondayBeforeOpen))
    by (left; vm_compute; reflexivity).
  split; [exact Hd |]. split; [exact Hb |].
  exact (proj1 (getLastMarketDay_rollback mondayBeforeOpen) Hd Hb).
Defined.

End MarketClockSpec.

(** * The live tick stream: what the specification states *)
Module StreamSpec.
Import Stream Samples.

Lemma reconnectDelay_cap n : reconnectDelay n <= 30000.
Proof. unfold reconnectDelay. lia. Qed.

Lemma reconnectDelay_grows n :
  reconnectDelay n < 30000 -> reconnectDelay n < reconnectDelay (S n).
Proof.
  unfold reconnectDelay. intro H.
  rewrite Nat2Z.inj_succ, Z.pow_succ_r by lia.
  assert (0 < 2 ^ Z.of_nat n) by (apply Z.pow_pos_nonneg; lia).
  lia.
Qed.

Lemma step_Closed now token socket rs keys st :
  sockets st !! socket = Some (mkSocket rs keys) -> rs <> CLOSED ->
  step now token (Closed socket) st
  = Some (onclose keys now (closedSocket socket keys st)).
Proof.
  intros Hs Hrs. unfold step. rewrite Hs.
  destruct rs; try reflexivity. contradiction.
Qed.

Lemma onclose_retry keys now st :
  isMarketOpen now = true ->
  (wsReconnectAttempts st < MAX_RECONNECT_ATTEMPTS)%nat ->
  onclose keys now st =
  setTimeout keys (reconnectDelay (wsReconnectAttempts st))
    (setAttempts (S (wsReconnectAttempts st))
       (onConnectionChange disconnected (setConnection None st))).
Proof.
  intros Hopen Hlt. unfold onclose. simpl. rewrite Hopen.
  apply Nat.ltb_lt in Hlt. rewrite Hlt. reflexivity.
Qed.

Lemma onclose_give_up keys now st :
  isMarketOpen now = false \/
  (MAX_RECONNECT_ATTEMPTS <= wsReconnectAttempts st)%nat ->
  onclose keys now st =
  onConnectionChange disconnected (setConnection None st).
Proof.
  intros H. unfold onclose. simpl. destruct H as [H | H].
  - rewrite H. reflexivity.
  - apply Nat.ltb_ge in H. rewrite H, andb_false_r. reflexivity.
Qed.

(** C4: when a socket the client did not close is closed, a reconnect is
    scheduled exactly when the market is open and fewer than
    [MAX_RECONNECT_ATTEMPTS] = 5 attempts were made; its delay is
    [min (1000 * 2^n) 30000] ms for [n] attempts so far, and the attempt is
    counted; otherwise, in particular while the market is closed, the
    pending timeouts and the counter are left as they are.  The delay never
    exceeds 30000 and grows strictly with [n] while it is below 30000. *)
Theorem unintentional_close_reconnect (now : Z) (token : option string)
    (socket : nat) (rs : ReadyState) (keys : list string) (st : State) :
  sockets st !! socket = Some (mkSocket rs keys) ->
  rs = CONNECTING \/ rs = OPEN ->
  exists st', step now token (Closed socket) st = Some st' /\
    let n := wsReconnectAttempts st in
    MAX_RECONNECT_ATTEMPTS = 5%nat /\
    (nextTimer st' = S (nextTimer st) <->
     isMarketOpen now = true /\ (n < MAX_RECONNECT_ATTEMPTS)%nat) /\
    (isMarketOpen now = true -> (n < MAX_RECONNECT_ATTEMPTS)%nat ->
     timers st' =
       <[nextTimer st := mkTimer (Z.min (1000 * 2 ^ Z.of_nat n) 30000) keys]>
         (timers st) /\
     wsReconnectTimer st' = Some (nextTimer st) /\
     wsReconnectAttempts st' = S n) /\
    (isMarketOpen now = false \/ (MAX_RECONNECT_ATTEMPTS <= n)%nat ->
     timers st' = timers st /\ nextTimer st' = nextTimer st /\
     wsReconnectTimer st' = wsReconnectTimer st /\
     wsReconnectAttempts st' = n) /\
    (forall m, reconnectDelay m <= 30000 /\
               (reconnectDelay m < 30000 ->
                reconnectDelay m < reconnectDelay (S m))).
Proof.
  intros Hs Hrs.
  assert (Hne : rs <> CLOSED) by (destruct Hrs; subst; discriminate).
  eexists. split; [apply (step_Closed _ _ _ _ _ _ Hs Hne) |].
  cbv zeta. split; [reflexivity |].
  set (st0 := closedSocket socket keys st).
  assert (Hn : wsReconnectAttempts st0 = wsReconnectAttempts st)
    by reflexivity.
  split; [| split; [| split]].
  - destruct (isMarketOpen now) eqn:Hopen.
    + destruct (Nat.lt_ge_cases (wsReconnectAttempts st)
                  MAX_RECONNECT_ATTEMPTS) as [Hlt | Hge].
      * rewrite onclose_retry by (rewrite ?Hn; assumption).
        simpl. tauto.
      * rewrite onclose_give_up by (right; rewrite Hn; exact Hge).
        simpl. split; [lia | intros [_ H]; lia].
    + rewrite onclose_give_up by (left; exact Hopen).
      simpl. split; [lia | intros [H _]; discriminate].
  - intros Hopen Hlt.
    rewrite onclose_retry by (rewrite ?Hn; assumption).
    simpl. auto.
  - intros H. rewrite onclose_give_up by (rewrite Hn; exact H).
    simpl. auto.
  - intro m. split; [apply reconnectDelay_cap | apply reconnectDelay_grows].
Qed.

(** A connection that drops on a Sunday is not retried. *)
Lemma close_on_sunday_no_reconnect :
  option_map (fun st => (timers st, wsReconnectTimer st, wsReconnectAttempts st))
             (step sundayMorning jwt (Closed 0%nat) liveStream)
  = Some (∅, None, 0%nat).
Proof. vm_compute. reflexivity. Qed.

Lemma unintentional_close_reconnect_witness :
  exists st', step mondaySession jwt (Closed 0%nat) liveStream = Some st' /\
    timers st' !! 0%nat = Some (mkTimer 1000 [reliance]) /\
    wsReconnectAttempts st' = 1%nat.
Proof.
  destruct (unintentional_close_reconnect mondaySession jwt 0%nat OPEN
              [reliance] liveStream eq_refl (or_intror eq_refl))
    as (st' & Hstep & _ & _ & Hretry & _).
  destruct (Hretry eq_refl ltac:(vm_compute; lia)) as (Ht & _ & Hn).
  exists st'. split; [exact Hstep |]. split; [| exact Hn].
  rewrite Ht. apply lookup_insert_eq.
Defined.

Lemma closeSocket_keeps socket st :
  wsReconnectTimer (closeSocket socket st) = wsReconnectTimer st /\
  timers (closeSocket socket st) = timers st.
Proof.
  unfold closeSocket.
  destruct (sockets st !! socket) as [[[] ?] |]; simpl; auto.
Qed.

(** What [disconnectMarketWebSocket] does clear: the stored timer and its
    pending timeout, the counter and the connection. *)
Lemma disconnectMarketWebSocket_clears st :
  let st' := disconnectMarketWebSocket st in
  wsReconnectTimer st' = None /\ wsReconnectAttempts st' = 0%nat /\
  wsConnection st' = None /\
  (forall t, wsReconnectTimer st = Some t -> timers st' !! t = None).
Proof.
  unfold disconnectMarketWebSocket. cbv zeta.
  set (st1 := match wsReconnectTimer st with
              | Some t => clearReconnectTimer t st
              | None => st
              end).
  assert (H1 : wsReconnectTimer st1 = None /\
               forall t, wsReconnectTimer st = Some t ->
                         timers st1 !! t = None).
  { subst st1. destruct (wsReconnectTimer st) as [t |] eqn:E; simpl.
    - split; [reflexivity |]. intros t' [= <-]. apply lookup_delete_eq.
    - split; [exact E | discriminate]. }
  destruct H1 as [Ht Hp].
  destruct (wsConnection st1) as [s |] eqn:Hc; simpl.
  - destruct (closeSocket_keeps s st1) as [-> ->]. auto.
  - auto.
Qed.

(** The [onclose] handler still runs after a deliberate disconnect: the
    socket is only closing, its handler is attached, and nothing tells the
    handler that the client asked for the close. *)
Lemma disconnect_close_schedules now token socket keys st :
  wsConnection st = Some socket ->
  sockets st !! socket = Some (mkSocket OPEN keys) ->
  isMarketOpen now = true ->
  exists st',
    step now token (Closed socket) (disconnectMarketWebSocket st) = Some st' /\
    wsReconnectTimer st' = Some (nextTimer st) /\
    timers st' !! nextTimer st = Some (mkTimer 1000 keys).
Proof.
  intros Hc Hs Hopen.
  assert (Hd : exists tm,
             disconnectMarketWebSocket st =
             mkState None 0 None
               (<[socket := mkSocket CLOSING keys]> (sockets st)) tm
               (sent st) (statuses st) (nextSocket st) (nextTimer st)).
  { destruct st as [c n t ss tm se stt ns nt]. simpl in Hc, Hs. subst c.
    unfold disconnectMarketWebSocket.
    destruct t as [t |]; simpl; unfold closeSocket; simpl; rewrite Hs;
      eexists; reflexivity. }
  destruct Hd as [tm ->].
  eexists. split.
  - eapply step_Closed; [apply lookup_insert_eq | discriminate].
  - rewrite onclose_retry;
      [| exact Hopen | simpl; unfold MAX_RECONNECT_ATTEMPTS; lia].
    simpl. split; [reflexivity | apply lookup_insert_eq].
Qed.

(** C5, on the code: after [disconnectMarketWebSocket] on an open
    connection during the session, the close event of that connection
    schedules a reconnect one second later. *)
Theorem disconnect_then_close_reconnects :
  exists st,
    run jwt [(mondaySession, Connect [reliance]);
             (mondaySession, Opened 0%nat);
             (mondaySession, Disconnect);
             (mondaySession, Closed 0%nat)] initial = Some st /\
    wsReconnectTimer st = Some 0%nat /\
    timers st !! 0%nat = Some (mkTimer 1000 [reliance]) /\
    wsReconnectAttempts st = 1%nat.
Proof. eexists. split; [vm_compute; reflexivity |]. vm_compute. auto. Qed.




End StreamSpec.

(** * The fetcher: what the specification states *)
Module FetcherSpec.
Import Fetcher Samples.


Lemma getCachedData_other key now st :
  let st' := snd (getCachedData key now st) in
  activeRequests st' = activeRequests st /\ aborted st' = aborted st /\
  suspended st' = suspended st /\ issued st' = issued st /\
  nextController st' = nextController st.
Proof.
  unfold getCachedData.
  destruct (candleCache st !! key) as [e |]; [| simpl; auto 6].
  destruct (now - timestamp e >? CACHE_TTL); simpl; auto 6.
Qed.


Lemma lookedUp_issued key force now st :
  issued (snd (lookedUp key force now st)) = issued st.
Proof.
  unfold lookedUp. destruct force; simpl; [reflexivity |].
  apply getCachedData_other.
Qed.

(** [getCandleIntraday], case by case. *)
Lemma getCandleIntraday_cases k iv force limit now st :
  let key := getCacheKey k TF_1D iv in
  let st0 := snd (lookedUp key force now st) in
  (exists cached,
     fst (lookedUp key force now st) = Some cached /\
     getCandleIntraday k iv force limit now st = (Returned cached, st0)) \/
  (fst (lookedUp key force now st) = None /\
   exists st1,
     candleCache st1 = candleCache st0 /\ issued st1 = issued st0 /\
     suspended st1 = suspended st0 /\
     nextController st1 = nextController st0 /\
     (forall c, activeRequests st0 !! key = Some c -> c ∈ aborted st1) /\
     let c := nextController st0 in
     getCandleIntraday k iv force limit now st =
     (Awaiting c,
      awaitFetch (mkRequest CANDLES_INTRADAY k (fst (intervalToApiParams iv))
                            (snd (intervalToApiParams iv)) None limit c)
                 key (withActive (<[key := c]>) (snd (newController st1))))).
Proof.
  cbv zeta. unfold getCandleIntraday. fold (lookedUp (getCacheKey k TF_1D iv) force now st).
  destruct (lookedUp (getCacheKey k TF_1D iv) force now st) as [[cached |] st0];
    simpl fst; simpl snd.
  - left. exists cached. auto.
  - right. split; [reflexivity |].
    destruct (activeRequests st0 !! getCacheKey k TF_1D iv) as [c0 |] eqn:Ha.
    + exists (withActive (delete (getCacheKey k TF_1D iv)) (abort c0 st0)).
      simpl. repeat split.
      * intros c [= <-]. set_solver.
      * destruct (intervalToApiParams iv). reflexivity.
    + exists st0. repeat split.
      * discriminate.
      * simpl. destruct (intervalToApiParams iv). reflexivity.
Qed.

Lemma resume_suspended c s later st key :
  suspended st !! c = Some key ->
  exists res st',
    resume c s later st = Some (res, st') /\
    issued st' = issued st /\
    (forall key', key' <> key ->
       candleCache st' !! key' = candleCache st !! key') /\
    (c ∈ aborted st -> res = [] /\ candleCache st' = candleCache st) /\
    (c ∉ aborted st -> forall d, s = Response true d ->
       res = cleanChartData d /\
       candleCache st' !! key = Some (mkEntry (cleanChartData d) later)).
Proof.
  intro Hs. unfold resume. rewrite Hs. simpl.
  destruct (decide (c ∈ aborted st)) as [Hab | Hab].
  - do 2 eexists. split; [reflexivity |]. simpl.
    repeat split; auto; contradiction.
  - destruct s as [[|] d |]; do 2 eexists; (split; [reflexivity |]); simpl;
      (split; [reflexivity |]); (split; [| split]);
      try (intro; contradiction); try discriminate; try reflexivity.
    + intros key' Hne. apply lookup_insert_ne. congruence.
    + intros _ d' [= <-]. split; [reflexivity | apply lookup_insert_eq].
Qed.

(** C1: a [getCandleHistory] call with timeframe ['1D'] is the
    [getCandleIntraday] call for the same instrument and interval with
    limit 200: same result, same state; the only request it can issue goes
    to the intraday endpoint, and settling a fetch issues none. *)
Theorem history_1D_is_intraday (instrumentKey : string)
    (interval : CandleInterval) (forceRefresh : bool) (now : Z) (st : State) :
  getCandleHistory instrumentKey TF_1D interval forceRefresh now st
  = getCandleIntraday instrumentKey interval forceRefresh 200 now st /\
  (exists new,
     issued (snd (getCandleHistory instrumentKey TF_1D interval forceRefresh
                                   now st)) = issued st ++ new /\
     Forall (fun r => reqEndpoint r = CANDLES_INTRADAY /\
                      reqInstrument r = instrumentKey /\ reqLimit r = 200)
            new) /\
  (forall c s later st1,
     match resume c s later st1 with
     | Some (_, st2) => issued st2 = issued st1
     | None => True
     end).
Proof.
  split; [reflexivity |]. split.
  - change (getCandleHistory instrumentKey TF_1D interval forceRefresh now st)
      with (getCandleIntraday instrumentKey interval forceRefresh 200 now st).
    destruct (getCandleIntraday_cases instrumentKey interval forceRefresh 200
                now st) as [(cached & _ & ->) | (_ & st1 & _ & Hi & _ & _ & _ & ->)].
    + exists []. simpl. rewrite lookedUp_issued, app_nil_r. auto.
    + eexists [_]. simpl. rewrite Hi, lookedUp_issued.
      split; [reflexivity |]. repeat constructor.
  - intros c s later st1.
    destruct (suspended st1 !! c) as [key |] eqn:Hs.
    + destruct (resume_suspended c s later st1 key Hs)
        as (res & st2 & -> & Hi & _). exact Hi.
    + unfold resume. rewrite Hs. exact I.
Qed.



(** The entry written for a ['1D'] history call is overwritten by the forced
    refresh of the poller and then served to a direct intraday call. *)
Lemma one_entry_for_three_paths :
  exists st,
    run [(mondaySession, CallHistory reliance TF_1D I_5m false);
         (mondaySession + 300, Settle 0%nat (Response true secondBars))]
        initial = Some st /\
    fst (getCandleIntraday reliance I_5m false 500 (mondaySession + 400) st)
    = Returned secondBars /\
    exists c st1 st2,
      poll reliance I_5m (mondaySession + 7000) st = Some (Awaiting c, st1) /\
      resume c (Response true thirdBars) (mondaySession + 7300) st1
      = Some (thirdBars, st2) /\
      fst (getCandleHistory reliance TF_1D I_5m false (mondaySession + 8000) st2)
      = Returned thirdBars.
Proof.
  eexists. split; [vm_compute; reflexivity |].
  split; [vm_compute; reflexivity |].
  do 3 eexists. split; [vm_compute; reflexivity |].
  split; [vm_compute; reflexivity |]. vm_compute. reflexivity.
Qed.

(** ** Supersession *)

(** What does hold: a call that finds a controller registered under its
    key aborts it. *)
Lemma registered_fetch_is_aborted k iv limit now st c0 :
  activeRequests st !! getCacheKey k TF_1D iv = Some c0 ->
  c0 ∈ aborted (snd (getCandleIntraday k iv true limit now st)).
Proof.
  intro Ha.
  destruct (getCandleIntraday_cases k iv true limit now st)
    as [(cached & Hl & _) | (_ & st1 & _ & _ & _ & _ & Hab & ->)].
  - discriminate Hl.
  - simpl. apply Hab. exact Ha.
Qed.

(** What does hold: a fetch whose controller was aborted stores nothing. *)
Lemma aborted_fetch_stores_nothing c s later st key :
  suspended st !! c = Some key -> c ∈ aborted st ->
  exists st', resume c s later st = Some ([], st') /\
              candleCache st' = candleCache st.
Proof.
  intros Hs Hab.
  destruct (resume_suspended c s later st key Hs)
    as (res & st' & Hr & _ & _ & Haborted & _).
  destruct (Haborted Hab) as [-> Hc]. exists st'. auto.
Qed.

(** The slip: the rejection handler of an aborted fetch deletes whatever
    controller is registered under the key, also the one of the fetch that
    replaced it. *)
Lemma aborted_fetch_unregisters_successor c s later st key :
  suspended st !! c = Some key -> c ∈ aborted st ->
  exists res st', resume c s later st = Some (res, st') /\
                  activeRequests st' !! key = None.
Proof.
  intros Hs Hab. unfold resume. rewrite Hs. simpl.
  destruct (decide (c ∈ aborted st)); [| contradiction].
  do 2 eexists. split; [reflexivity |]. simpl. apply lookup_delete_eq.
Qed.

(** C3, on the code: three forced fetches for one key, each started while
    the previous one is in flight.  The first is aborted by the second and
    its rejection handler runs; the third then finds no controller to
    abort, and the second fetch, settling last, leaves its bars in the
    cache.  The same happens on the intraday path. *)
Theorem third_fetch_leaves_second_in_flight :
  (exists st,
     run [(mondaySession, CallHistory reliance TF_1W I_5m true);
          (mondaySession + 10, CallHistory reliance TF_1W I_5m true);
          (mondaySession + 10, Settle 0%nat Rejected);
          (mondaySession + 20, CallHistory reliance TF_1W I_5m true);
          (mondaySession + 300, Settle 2%nat (Response true thirdBars));
          (mondaySession + 400, Settle 1%nat (Response true secondBars))]
         initial = Some st /\
     (1%nat ∉ aborted st) /\
     candleCache st !! getCacheKey reliance TF_1W I_5m
     = Some (mkEntry secondBars (mondaySession + 400))) /\
  (exists st,
     run [(mondaySession, CallIntraday reliance I_5m true 500);
          (mondaySession + 10, CallIntraday reliance I_5m true 500);
          (mondaySession + 10, Settle 0%nat Rejected);
          (mondaySession + 20, CallIntraday reliance I_5m true 500);
          (mondaySession + 300, Settle 2%nat (Response true thirdBars));
          (mondaySession + 400, Settle 1%nat (Response true secondBars))]
         initial = Some st /\
     (1%nat ∉ aborted st) /\
     candleCache st !! getCacheKey reliance TF_1D I_5m
     = Some (mkEntry secondBars (mondaySession + 400))).
Proof.
  split; eexists; (split; [vm_compute; reflexivity |]);
    (split; [| vm_compute; reflexivity]);
    apply (bool_decide_unpack _); vm_compute; exact I.
Qed.

End FetcherSpec.

(** * More about the normaliser *)
Module NormalizerLaws.
Import NumberFacts CandleFacts Samples.

Lemma gt_zero_not_nan x : gt x zero = true -> isNaN x = false.
Proof. destruct x; simpl; congruence. Qed.

Lemma le_lt_false x y : le x y = true -> lt y x = false.
Proof.
  unfold le, ge. destruct x, y; simpl; try congruence;
    intro H; apply negb_true_iff in H; exact H.
Qed.

Lemma le_not_nan x y : le x y = true -> isNaN x = false /\ isNaN y = false.
Proof. unfold le, ge. destruct x, y; simpl; try congruence; auto. Qed.

Lemma le_trans x y z : le x y = true -> le y z = true -> le x z = true.
Proof.
  unfold le, ge. destruct x, y, z; simpl; try congruence.
  rewrite !negb_true_iff, !Qltb_false. apply Qle_trans.
Qed.

Lemma validateCandles_sublist l : sublist (validateCandles l) l.
Proof.
  unfold validateCandles. induction l as [| x l IH]; simpl.
  - constructor.
  - destruct (keepCandle x); [apply sublist_skip | apply sublist_cons];
      exact IH.
Qed.

(** X1: [validateCandles] keeps a record exactly when its four prices are
    positive, its volume is not negative (none of them NaN) and
    [low <= open, close <= high]; the records kept stay in input order. *)
Theorem validateCandles_keeps_exactly (l : list CandleData) (c : CandleData) :
  (In c (validateCandles l) <->
   In c l /\
   gt (open c) zero = true /\ gt (high c) zero = true /\
   gt (low c) zero = true /\ gt (close c) zero = true /\
   ge (volume c) zero = true /\ ohlcOrdered c) /\
  sublist (validateCandles l) l.
Proof.
  split.
  - unfold validateCandles. rewrite filter_In. split.
    + intros [Hin Hk]. split; [exact Hin |].
      pose proof (keepCandle_ohlcOrdered c Hk) as Ho.
      apply keepCandle_true in Hk. destruct Hk as [Hv _].
      apply isValid_true in Hv. tauto.
    + intros (Hin & Po & Ph & Pl & Pc & Pv & Ho). split; [exact Hin |].
      destruct Ho as (Hlo & Hoh & Hlc & Hch & Hlh).
      unfold keepCandle, isValid.
      rewrite Po, Ph, Pl, Pc, Pv.
      rewrite (gt_zero_not_nan _ Po), (gt_zero_not_nan _ Ph),
        (gt_zero_not_nan _ Pl), (gt_zero_not_nan _ Pc).
      replace (isNaN (volume c)) with false
        by (symmetry; unfold ge in Pv; destruct (volume c); simpl in *;
            congruence).
      simpl. unfold gt.
      rewrite (le_lt_false _ _ Hlh), (le_lt_false _ _ Hoh),
        (le_lt_false _ _ Hch), (le_lt_false _ _ Hlo), (le_lt_false _ _ Hlc).
      reflexivity.
  - apply validateCandles_sublist.
Qed.

Lemma validateCandles_keeps_exactly_witness :
  In (candle (ofZ 101) 10 12 9 11 5) (validateCandles mixedBatch).
Proof.
  apply (proj1 (validateCandles_keeps_exactly mixedBatch _)).
  split; [left; reflexivity | repeat split].
Defined.

Lemma dedupFrom_sublist seen l : sublist (dedupFrom seen l) l.
Proof.
  revert seen. induction l as [| x l IH]; intro seen; simpl.
  - constructor.
  - destruct (setHas seen (time x)).
    + apply sublist_cons, IH.
    + apply sublist_skip, IH.
Qed.

Lemma dedupFrom_first seen l1 d l2 :
  setHas seen (time d) = false ->
  Forall (fun e => sameValueZero (time e) (time d) = false) l1 ->
  In d (dedupFrom seen (l1 ++ d :: l2)).
Proof.
  revert seen. induction l1 as [| e l1 IH]; intros seen Hs Hl; simpl.
  - rewrite Hs. left. reflexivity.
  - inversion Hl as [| ? ? He Hl']; subst.
    destruct (setHas seen (time e)).
    + apply IH; assumption.
    + right. apply IH; [| exact Hl'].
      simpl. rewrite He, Hs. reflexivity.
Qed.

(** The first record of [l] that has the time of [c]. *)
Lemma first_with_time l c :
  In c l ->
  exists l1 d l2,
    l = l1 ++ d :: l2 /\ sameValueZero (time d) (time c) = true /\
    Forall (fun e => sameValueZero (time e) (time d) = false) l1.
Proof.
  induction l as [| x l IH]; intro Hin; [contradiction |].
  destruct (sameValueZero (time x) (time c)) eqn:E.
  - exists [], x, l. repeat split; [exact E | constructor].
  - destruct Hin as [-> | Hin];
      [rewrite sameValueZero_refl in E; discriminate |].
    destruct (IH Hin) as (l1 & d & l2 & -> & Hd & Hl1).
    exists (x :: l1), d, l2. repeat split; [exact Hd |].
    constructor; [| exact Hl1].
    destruct (sameValueZero (time x) (time d)) eqn:Exd; [| reflexivity].
    rewrite (sameValueZero_trans _ _ _ Exd Hd) in E. discriminate.
Qed.

Lemma distinct_times_unique l a b :
  noDuplicateTime l -> In a l -> In b l ->
  sameValueZero (time a) (time b) = true -> a = b.
Proof.
  induction 1 as [| x l Hx _ IH]; intros Ha Hb Hs; [contradiction |].
  rewrite List.Forall_forall in Hx.
  destruct Ha as [-> | Ha], Hb as [-> | Hb].
  - reflexivity.
  - specialize (Hx _ Hb). unfold timeDistinct in Hx. congruence.
  - specialize (Hx _ Ha). unfold timeDistinct in Hx.
    rewrite sameValueZero_sym in Hx. congruence.
  - auto.
Qed.

(** X2: [deduplicateCandles] returns a subsequence of its input with pairwise
    different times, and for every input record it keeps the first record
    of the input that has the same time. *)
Theorem deduplicateCandles_first_wins (l : list CandleData) :
  sublist (deduplicateCandles l) l /\
  noDuplicateTime (deduplicateCandles l) /\
  (forall c, In c l ->
     exists l1 d l2,
       l = l1 ++ d :: l2 /\ sameValueZero (time d) (time c) = true /\
       Forall (fun e => sameValueZero (time e) (time d) = false) l1 /\
       In d (deduplicateCandles l)).
Proof.
  split; [apply dedupFrom_sublist |]. split; [apply dedupFrom_distinct |].
  intros c Hin.
  destruct (first_with_time l c Hin) as (l1 & d & l2 & -> & Hd & Hl1).
  exists l1, d, l2. repeat split; try assumption.
  apply dedupFrom_first; [reflexivity | exact Hl1].
Qed.

Lemma deduplicateCandles_first_wins_witness :
  exists l1 d l2,
    validateCandles mixedBatch = l1 ++ d :: l2 /\
    sameValueZero (time d) (ofZ 100) = true /\
    Forall (fun e => sameValueZero (time e) (time d) = false) l1 /\
    In d (deduplicateCandles (validateCandles mixedBatch)).
Proof.
  apply (proj2 (proj2 (deduplicateCandles_first_wins
                         (validateCandles mixedBatch)))
           (candle (ofZ 100) 30 32 29 31 8)).
  vm_compute. auto.
Defined.

Lemma notDescending_le a b :
  isNaN (time a) = false -> isNaN (time b) = false ->
  notDescending a b -> le (time a) (time b) = true.
Proof. intros Ha Hb H. apply le_of_not_lt; assumption. Qed.

(** X3: [sortCandles] returns a permutation of its input; when no time is NaN
    the result is in time order: every record is [<=] every later one. *)
Theorem sortCandles_sorts (l : list CandleData) :
  Permutation (sortCandles l) l /\
  (Forall (fun c => isNaN (time c) = false) l ->
   StronglySorted (fun a b => le (time a) (time b) = true) (sortCandles l)).
Proof.
  split; [apply sortCandles_perm |]. intro Hn.
  assert (Hn' : Forall (fun c => isNaN (time c) = false) (sortCandles l))
    by (eapply Permutation_Forall;
        [apply Permutation_sym, sortCandles_perm | exact Hn]).
  apply Sorted_StronglySorted.
  - intros a b c. apply le_trans.
  - pose proof (sortCandles_sorted l) as Hs.
    induction Hs as [| x m Hs IH Hhd]; [constructor |].
    inversion Hn' as [| ? ? Hx Hm]; subst.
    constructor; [apply IH; exact Hm |].
    destruct Hhd as [| y m Hxy]; constructor.
    inversion Hm; subst. apply notDescending_le; assumption.
Qed.

Lemma sortCandles_sorts_witness :
  StronglySorted (fun a b => le (time a) (time b) = true)
                 (sortCandles mixedBatch).
Proof.
  apply (proj2 (sortCandles_sorts mixedBatch)). repeat constructor.
Defined.

Lemma strictlyIncreasing_distinct l :
  strictlyIncreasing l -> noDuplicateTime l.
Proof.
  induction 1 as [| x l _ IH Hx]; constructor; [| exact IH].
  eapply List.Forall_impl; [| exact Hx].
  intros c Hc. apply lt_not_same. exact Hc.
Qed.

Lemma strictlyIncreasing_notDescending l :
  strictlyIncreasing l -> Sorted notDescending l.
Proof.
  intro H. apply StronglySorted_Sorted in H.
  induction H as [| x l _ IH Hhd]; constructor; [exact IH |].
  destruct Hhd as [| y l Hxy]; constructor. apply lt_asym. exact Hxy.
Qed.

(** X4: A series that is already valid, with strictly increasing times and
    every record passing validation, goes through [cleanChartData]
    unchanged. *)
Theorem cleanChartData_fixes_valid_series (l : list CandleData) :
  strictlyIncreasing l -> Forall (fun c => keepCandle c = true) l ->
  cleanChartData l = l.
Proof.
  intros Hs Hk. rewrite cleanChartData_eq.
  rewrite (validateCandles_id _ Hk).
  rewrite (deduplicateCandles_id _ (strictlyIncreasing_distinct _ Hs)).
  apply sortCandles_id, strictlyIncreasing_notDescending, Hs.
Qed.

Lemma cleanChartData_fixes_valid_series_witness :
  cleanChartData (secondBars ++ thirdBars) = secondBars ++ thirdBars.
Proof.
  apply cleanChartData_fixes_valid_series.
  - repeat constructor.
  - repeat constructor.
Defined.

(** X5: [cleanChartData] returns the empty list exactly when no record of the
    input passes validation. *)
Theorem cleanChartData_empty_iff (l : list CandleData) :
  cleanChartData l = [] <-> Forall (fun c => keepCandle c = false) l.
Proof.
  rewrite cleanChartData_eq. split.
  - intro H.
    assert (Hd : deduplicateCandles (validateCandles l) = []).
    { apply Permutation_nil. rewrite <- H. apply sortCandles_perm. }
    assert (Hv : validateCandles l = []).
    { destruct (validateCandles l); [reflexivity | discriminate Hd]. }
    apply List.Forall_forall. intros c Hc.
    destruct (keepCandle c) eqn:E; [| reflexivity].
    assert (Hin : In c (validateCandles l)) by (apply filter_In; auto).
    rewrite Hv in Hin. contradiction.
  - intro H.
    assert (Hv : validateCandles l = []).
    { unfold validateCandles. induction H as [| x l Hx _ IH]; simpl.
      - reflexivity.
      - rewrite Hx. exact IH. }
    rewrite Hv. reflexivity.
Qed.

Lemma cleanChartData_empty_iff_witness :
  cleanChartData [candle (ofZ 102) 10 10 20 10 1;
                  candle (ofZ 103) 10 12 9 11 (-5)] = [].
Proof.
  apply (proj2 (cleanChartData_empty_iff _)). repeat constructor.
Defined.

(** X6: Every record of the output of [cleanChartData] is a record of the input
    that passes validation, the output is no longer than the input, and
    the record the output carries for a time is the first record with that
    time among those that pass validation. *)
Theorem cleanChartData_first_valid_wins (l : list CandleData) :
  (forall c, In c (cleanChartData l) -> In c l /\ keepCandle c = true) /\
  (length (cleanChartData l) <= length l)%nat /\
  (forall c, In c l -> keepCandle c = true ->
     exists l1 d l2,
       validateCandles l = l1 ++ d :: l2 /\
       sameValueZero (time d) (time c) = true /\
       Forall (fun e => sameValueZero (time e) (time d) = false) l1 /\
       In d (cleanChartData l) /\
       forall e, In e (cleanChartData l) ->
                 sameValueZero (time e) (time c) = true -> e = d).
Proof.
  split; [intro c; apply cleanChartData_In |]. split.
  - rewrite (Permutation_length (cleanChartData_perm l)).
    etransitivity; [apply sublist_length, dedupFrom_sublist |].
    apply sublist_length, validateCandles_sublist.
  - intros c Hin Hk.
    assert (Hv : In c (validateCandles l)) by (apply filter_In; auto).
    destruct (first_with_time _ c Hv) as (l1 & d & l2 & Hl & Hd & Hl1).
    assert (Hdin : In d (cleanChartData l)).
    { apply (Permutation_in _ (Permutation_sym (cleanChartData_perm l))).
      rewrite Hl. apply dedupFrom_first; [reflexivity | exact Hl1]. }
    exists l1, d, l2. repeat split; try assumption.
    intros e He Hs.
    apply (distinct_times_unique _ _ _ (cleanChartData_distinct l) He Hdin).
    apply (sameValueZero_trans _ _ _ Hs).
    rewrite sameValueZero_sym. exact Hd.
Qed.

Lemma cleanChartData_first_valid_wins_witness :
  In (candle (ofZ 100) 20 22 19 21 7) (cleanChartData mixedBatch) /\
  ~ In (candle (ofZ 100) 30 32 29 31 8) (cleanChartData mixedBatch).
Proof.
  destruct (proj2 (proj2 (cleanChartData_first_valid_wins mixedBatch))
              (candle (ofZ 100) 30 32 29 31 8))
    as (l1 & d & l2 & _ & Hd & _ & Hdin & Huniq).
  - vm_compute. auto.
  - reflexivity.
  - assert (Hfirst : candle (ofZ 100) 20 22 19 21 7 = d).
    { apply Huniq; [vm_compute; auto | reflexivity]. }
    rewrite Hfirst. split; [exact Hdin |].
    intro Hin. apply Huniq in Hin; [| reflexivity].
    rewrite <- Hfirst in Hin. discriminate Hin.
Defined.

End NormalizerLaws.

(** * More about the market clock *)
Module ClockLaws.
Import Samples.

Lemma getDay_range t : 0 <= getDay t <= 6.
Proof. unfold getDay. pose proof (Z.mod_pos_bound (dayNumber t + 4) 7). lia. Qed.

Lemma getHours_range t : 0 <= getHours t <= 23.
Proof.
  unfold getHours, msPerDay.
  pose proof (Z.mod_pos_bound t 86400000 ltac:(lia)).
  split; [apply Z.div_pos; lia |].
  apply Z.lt_succ_r, Z.div_lt_upper_bound; lia.
Qed.

Lemma getMinutes_range t : 0 <= getMinutes t <= 59.
Proof.
  unfold getMinutes.
  pose proof (Z.mod_pos_bound t 3600000 ltac:(lia)).
  split; [apply Z.div_pos; lia |].
  apply Z.lt_succ_r, Z.div_lt_upper_bound; lia.
Qed.

(** Minutes since midnight, as [hours * 60 + minutes]. *)
Lemma minutes_of_day t :
  getHours t * 60 + getMinutes t = (t mod msPerDay) / 60000.
Proof.
  unfold getHours, getMinutes, msPerDay. Z.div_mod_to_equations. lia.
Qed.

Lemma beforeOpen_minutes t :
  beforeOpen t <-> getHours t * 60 + getMinutes t < 555.
Proof.
  unfold beforeOpen.
  pose proof (getHours_range t). pose proof (getMinutes_range t). lia.
Qed.

Lemma beforeOpen_test_iff t :
  (getHours t <? 9) || ((getHours t =? 9) && (getMinutes t <? 15)) = true
  <-> beforeOpen t.
Proof.
  unfold beforeOpen.
  rewrite orb_true_iff, andb_true_iff, !Z.ltb_lt, Z.eqb_eq. reflexivity.
Qed.

Lemma weekday_test d :
  0 <= d <= 6 -> ((d =? 0) || (d =? 6) = false <-> 1 <= d <= 5).
Proof.
  intro H. rewrite orb_false_iff, !Z.eqb_neq. lia.
Qed.

Lemma isMarketOpen_minutes now :
  isMarketOpen now = true <->
  1 <= getDay (istTime now) <= 5 /\
  555 <= getHours (istTime now) * 60 + getMinutes (istTime now) <= 930.
Proof.
  unfold isMarketOpen. cbv zeta.
  pose proof (weekday_test _ (getDay_range (istTime now))) as Hw.
  destruct ((getDay (istTime now) =? 0) || (getDay (istTime now) =? 6)).
  - split; [discriminate |]. intros [Hd _].
    destruct Hw as [_ Hw]. specialize (Hw Hd). discriminate.
  - rewrite andb_true_iff, Z.geb_le, Z.leb_le.
    destruct Hw as [Hw _]. specialize (Hw eq_refl).
    change (9 * 60 + 15) with 555. change (15 * 60 + 30) with 930. tauto.
Qed.

Lemma isWithinMarketHours_minutes now :
  isWithinMarketHours now = true <->
  1 <= getDay (istTime now) <= 5 /\
  555 <= getHours (istTime now) * 60 + getMinutes (istTime now) <= 929.
Proof.
  unfold isWithinMarketHours. cbv zeta.
  set (t := istTime now).
  pose proof (weekday_test _ (getDay_range t)) as Hw.
  pose proof (getHours_range t) as Hh. pose proof (getMinutes_range t) as Hm.
  destruct ((getDay t =? 0) || (getDay t =? 6)).
  - split; [discriminate |]. intros [Hd _].
    destruct Hw as [_ Hw]. specialize (Hw Hd). discriminate.
  - destruct Hw as [Hw _]. specialize (Hw eq_refl).
    destruct ((getHours t <? 9) || ((getHours t =? 9) && (getMinutes t <? 15)))
      eqn:Hpre.
    + apply beforeOpen_test_iff, beforeOpen_minutes in Hpre.
      split; [discriminate | lia].
    + assert (Hnp : ~ beforeOpen t)
        by (rewrite <- beforeOpen_test_iff, Hpre; discriminate).
      rewrite beforeOpen_minutes in Hnp.
      destruct ((getHours t >? 15) || ((getHours t =? 15) && (getMinutes t >=? 30)))
        eqn:Hpost.
      * split; [discriminate |]. intros [_ Hr].
        rewrite orb_true_iff, andb_true_iff, Z.gtb_lt, Z.eqb_eq, Z.geb_le
          in Hpost. lia.
      * rewrite orb_false_iff, andb_false_iff, Z.gtb_ltb, Z.ltb_ge,
          Z.eqb_neq, Z.geb_leb, Z.leb_gt in Hpost.
        split; [intros _ | reflexivity]. lia.
Qed.

Lemma window_ms t lo hi :
  lo * 60000 <= t mod msPerDay < (hi + 1) * 60000 <->
  lo <= getHours t * 60 + getMinutes t <= hi.
Proof.
  rewrite minutes_of_day. set (m := t mod msPerDay).
  pose proof (Z.div_mod m 60000 ltac:(lia)).
  pose proof (Z.mod_pos_bound m 60000 ltac:(lia)). lia.
Qed.

(** X7: In milliseconds of the IST day: [isMarketOpen] holds exactly from
    09:15:00.000 to 15:30:59.999 on Monday to Friday, and
    [isWithinMarketHours] exactly from 09:15:00.000 to 15:29:59.999 on
    Monday to Friday. *)
Theorem market_windows (now : Z) :
  let t := istTime now in
  (isMarketOpen now = true <->
   1 <= getDay t <= 5 /\ 33300000 <= t mod msPerDay < 55860000) /\
  (isWithinMarketHours now = true <->
   1 <= getDay t <= 5 /\ 33300000 <= t mod msPerDay < 55800000).
Proof.
  cbv zeta. rewrite isMarketOpen_minutes, isWithinMarketHours_minutes.
  rewrite <- (window_ms _ 555 930), <- (window_ms _ 555 929).
  split; reflexivity.
Qed.

Lemma market_windows_witness :
  isMarketOpen mondaySession = true /\
  isWithinMarketHours mondaySession = true.
Proof.
  split.
  - apply (proj1 (market_windows mondaySession)). vm_compute.
    repeat split; discriminate.
  - apply (proj2 (market_windows mondaySession)). vm_compute.
    repeat split; discriminate.
Defined.

(** X8: The stream and the poller use different clocks: whenever
    [isWithinMarketHours] holds so does [isMarketOpen], and the two differ
    exactly during the minute 15:30 of a weekday, when the market counts as
    open for reconnects and as closed for polling. *)
Theorem market_clocks_differ_at_1530 (now : Z) :
  let t := istTime now in
  (isWithinMarketHours now = true -> isMarketOpen now = true) /\
  (isMarketOpen now = true /\ isWithinMarketHours now = false <->
   1 <= getDay t <= 5 /\ getHours t = 15 /\ getMinutes t = 30).
Proof.
  cbv zeta. set (t := istTime now).
  pose proof (getHours_range t) as Hh. pose proof (getMinutes_range t) as Hm.
  rewrite <- (not_true_iff_false (isWithinMarketHours now)).
  rewrite isMarketOpen_minutes, isWithinMarketHours_minutes. fold t.
  split; [lia |]. split; lia.
Qed.

Lemma market_clocks_differ_at_1530_witness :
  isMarketOpen (mondaySession + 19800000) = true /\
  isWithinMarketHours (mondaySession + 19800000) = false.
Proof.
  apply (proj2 (market_clocks_differ_at_1530 (mondaySession + 19800000))).
  vm_compute. repeat split; discriminate.
Defined.

(** X9: [getLastMarketDay] returns a Monday-to-Friday date, at most three days
    back and never ahead, at the same time of day; it is today exactly when
    today is a weekday at or after 09:15 IST. *)
Theorem getLastMarketDay_weekday (now : Z) :
  let today := istTime now in
  let last := getLastMarketDay now in
  1 <= getDay last <= 5 /\
  dayNumber today - 3 <= dayNumber last <= dayNumber today /\
  last mod msPerDay = today mod msPerDay /\
  (last = today <-> 1 <= getDay today <= 5 /\ ~ beforeOpen today).
Proof.
  cbv zeta. unfold getLastMarketDay. cbv zeta. set (t := istTime now).
  pose proof (getDay_range t) as Hd.
  assert (Hback : forall n, 1 <= n ->
            setDateBack t n mod msPerDay = t mod msPerDay /\
            setDateBack t n <> t).
  { intros n Hn. unfold setDateBack, msPerDay. split; [| lia].
    replace (t - n * 86400000) with (t + (- n) * 86400000) by lia.
    apply Z.mod_add. lia. }
  assert (Hroll : forall n, 1 <= n <= 3 ->
            1 <= (getDay t - n) mod 7 <= 5 ->
            (1 <= getDay t <= 5 -> beforeOpen t) ->
            1 <= getDay (setDateBack t n) <= 5 /\
            dayNumber t - 3 <= dayNumber (setDateBack t n) <= dayNumber t /\
            setDateBack t n mod msPerDay = t mod msPerDay /\
            (setDateBack t n = t <-> 1 <= getDay t <= 5 /\ ~ beforeOpen t)).
  { intros n Hn Hday Hpre. destruct (Hback n ltac:(lia)) as [Hm Hne].
    rewrite MarketClockSpec.getDay_setDateBack,
      MarketClockSpec.dayNumber_setDateBack.
    split; [exact Hday |]. split; [lia |]. split; [exact Hm |].
    split; [intro; contradiction | intros [H1 H2]; destruct (H2 (Hpre H1))]. }
  destruct (getDay t =? 0) eqn:E0.
  { apply Z.eqb_eq in E0. apply Hroll; [lia | rewrite E0; vm_compute; split; discriminate | lia]. }
  destruct (getDay t =? 6) eqn:E6.
  { apply Z.eqb_eq in E6. apply Hroll; [lia | rewrite E6; vm_compute; split; discriminate | lia]. }
  apply Z.eqb_neq in E0, E6.
  destruct ((getHours t <? 9) || ((getHours t =? 9) && (getMinutes t <? 15)))
    eqn:Hpre.
  - apply beforeOpen_test_iff in Hpre. destruct (getDay t =? 1) eqn:E1.
    + apply Z.eqb_eq in E1.
      apply Hroll; [lia | rewrite E1; vm_compute; split; discriminate | auto].
    + apply Z.eqb_neq in E1.
      apply Hroll; [lia | rewrite Z.mod_small; lia | auto].
  - assert (Hnp : ~ beforeOpen t)
      by (rewrite <- beforeOpen_test_iff, Hpre; discriminate).
    repeat split; try lia; auto.
Qed.

Lemma getLastMarketDay_weekday_witness :
  getLastMarketDay mondaySession = istTime mondaySession.
Proof.
  apply (proj2 (proj2 (proj2 (getLastMarketDay_weekday mondaySession)))).
  split; [vm_compute; split; discriminate |].
  intros [H | [H _]]; vm_compute in H; discriminate.
Defined.

End ClockLaws.

(** * More about the configuration module *)
Module ConfigLaws.
Import ApiConfig ClockLaws Samples.

Lemma beforeOpen_closed now :
  beforeOpen (istTime now) -> isMarketOpen now = false.
Proof.
  intro H. apply not_true_iff_false. rewrite isMarketOpen_minutes.
  apply beforeOpen_minutes in H. lia.
Qed.

(** X10: [getMarketStatus] reports [isOpen] as [isMarketOpen] does; its message
    is ["Market Open"] exactly when the market is open, ["Pre-Market"]
    exactly before 09:15 IST on any day of the week, weekends included, and
    ["Market Closed"] otherwise. *)
Theorem getMarketStatus_message (now : Z) :
  let s := getMarketStatus now in
  isOpen s = isMarketOpen now /\
  (message s = "Market Open"%string <-> isMarketOpen now = true) /\
  (message s = "Pre-Market"%string <-> beforeOpen (istTime now)) /\
  (message s = "Market Closed"%string <->
   isMarketOpen now = false /\ ~ beforeOpen (istTime now)).
Proof.
  cbv zeta. unfold getMarketStatus. cbv zeta.
  pose proof (beforeOpen_closed now) as Hbc.
  pose proof (beforeOpen_test_iff (istTime now)) as Hb.
  destruct (isMarketOpen now) eqn:Hopen.
  - simpl. repeat split; try discriminate; try tauto;
      try (intro H; specialize (Hbc H); discriminate);
      try (intros [H _]; discriminate).
  - destruct ((getHours (istTime now) <? 9)
              || ((getHours (istTime now) =? 9)
                  && (getMinutes (istTime now) <? 15))) eqn:Hpre.
    + simpl. repeat split; try discriminate; try tauto;
        try (intros [_ H]; tauto).
    + assert (Hnp : ~ beforeOpen (istTime now))
        by (rewrite <- Hb; discriminate).
      destruct (((getHours (istTime now) >=? 15)
                 && (getMinutes (istTime now) >? 30))
                || (getHours (istTime now) >? 15));
        simpl; repeat split; try discriminate; try tauto.
Qed.

Lemma getMarketStatus_message_witness :
  message (getMarketStatus (sundayMorning - 7200000)) = "Pre-Market"%string.
Proof.
  apply (proj1 (proj2 (proj2 (getMarketStatus_message
                                (sundayMorning - 7200000))))).
  left. vm_compute. reflexivity.
Defined.

(** X11: A stored token is read back and sent as [Bearer <token>]; storing the
    empty string changes nothing; after [clearToken] there is no token and
    the [Authorization] header is empty; no other key of the storage is
    touched. *)
Theorem token_round_trip (token : string)
    (localStorage : gmap string string) :
  (token <> ""%string ->
   getToken (setToken token localStorage) = Some token /\
   authorization (getHeaders (setToken token localStorage))
   = ("Bearer " +:+ token)%string) /\
  setToken "" localStorage = localStorage /\
  getToken (clearToken localStorage) = None /\
  authorization (getHeaders (clearToken localStorage)) = ""%string /\
  (forall k, k <> TOKEN_KEY ->
     setToken token localStorage !! k = localStorage !! k /\
     clearToken localStorage !! k = localStorage !! k).
Proof.
  split; [| split; [| split; [| split]]].
  - intro Hne. destruct token as [| a t]; [contradiction |].
    unfold getHeaders, getToken, setToken. rewrite lookup_insert_eq. auto.
  - reflexivity.
  - apply lookup_delete_eq.
  - unfold getHeaders, getToken, clearToken. rewrite lookup_delete_eq.
    reflexivity.
  - intros k Hk. unfold setToken, clearToken. split.
    + destruct token; [reflexivity |]. apply lookup_insert_ne. congruence.
    + apply lookup_delete_ne. congruence.
Qed.

Lemma token_round_trip_witness :
  getToken (setToken "jwt" ∅) = Some "jwt"%string /\
  authorization (getHeaders (setToken "jwt" ∅)) = "Bearer jwt"%string.
Proof. apply (proj1 (token_round_trip "jwt" ∅)). discriminate. Defined.

(** [setDemoMode] is read back by [isDemoMode], the backend is used exactly
    when demo mode is off, and the token is left alone. *)
Theorem demo_mode_round_trip (enable : bool)
    (localStorage : gmap string string) :
  isDemoMode (setDemoMode enable localStorage) = enable /\
  shouldUseBackend (setDemoMode enable localStorage) = negb enable /\
  getToken (setDemoMode enable localStorage) = getToken localStorage.
Proof.
  unfold shouldUseBackend, isDemoMode, setDemoMode, getToken. simpl.
  destruct enable.
  - rewrite lookup_insert_eq, lookup_insert_ne by discriminate.
    rewrite bool_decide_eq_true_2 by reflexivity. auto.
  - rewrite lookup_delete_eq, lookup_delete_ne by discriminate.
    rewrite bool_decide_eq_false_2 by discriminate. auto.
Qed.

End ConfigLaws.

(** * More about the fetcher *)
Module FetcherLaws.
Import Fetcher Invariants CandleFacts FetcherSpec Samples.

(** ** Cache keys *)

Lemma chars_app (a b : string) :
  chars (a +:+ b)
  = chars a ++ chars b.
Proof. induction a as [| ch a IH]; simpl; [| rewrite IH]; reflexivity. Qed.

Lemma chars_inj (a b : string) : chars a = chars b -> a = b.
Proof.
  revert b. induction a as [| x a IH]; intros [| y b] H; simpl in H;
    try discriminate H; [reflexivity |].
  injection H as -> H. f_equal. apply IH. exact H.
Qed.

Lemma rev_key k tf iv :
  rev (chars (getCacheKey k tf iv))
  = rev (chars (intervalText iv)) ++
    chars "|" ++ rev (chars (timeframeText tf)) ++
    chars "|" ++ rev (chars k).
Proof.
  unfold getCacheKey. rewrite !chars_app, !rev_app_distr. simpl.
  rewrite <- !app_assoc. reflexivity.
Qed.

(** X12: Different (instrument, timeframe, interval) triples have different
    cache keys, although instrument keys themselves contain ['|']. *)
Theorem getCacheKey_injective (k1 k2 : string) (tf1 tf2 : Timeframe)
    (iv1 iv2 : CandleInterval) :
  getCacheKey k1 tf1 iv1 = getCacheKey k2 tf2 iv2 ->
  k1 = k2 /\ tf1 = tf2 /\ iv1 = iv2.
Proof.
  intro H.
  apply (f_equal (fun s => rev (chars s))) in H.
  rewrite !rev_key in H.
  assert (Hiv : iv1 = iv2 /\
                rev (chars (timeframeText tf1)) ++
                chars "|" ++ rev (chars k1)
                = rev (chars (timeframeText tf2)) ++
                  chars "|" ++ rev (chars k2)).
  { destruct iv1, iv2; simpl in H |- *; try (exfalso; congruence);
      (split; [reflexivity | congruence]). }
  destruct Hiv as [-> Htf].
  assert (Hk : tf1 = tf2 /\
               rev (chars k1) = rev (chars k2)).
  { destruct tf1, tf2; simpl in Htf |- *; try (exfalso; congruence);
      (split; [reflexivity | congruence]). }
  destruct Hk as [-> Hk].
  repeat split. apply chars_inj, rev_inj. exact Hk.
Qed.

Lemma getCacheKey_injective_witness :
  reliance = reliance /\ TF_1W = TF_1W /\ I_5m = I_5m.
Proof. apply getCacheKey_injective. reflexivity. Defined.

(** ** The shape of a call *)

(** Either function, up to its [await]: a cache hit, or a request sent
    after the registered fetch for the key, if any, was aborted. *)
Lemma call_shape k tf iv force now st :
  let key := getCacheKey k tf iv in
  let st0 := snd (lookedUp key force now st) in
  let c := nextController st0 in
  getCandleHistory k tf iv force now st =
  match fst (lookedUp key force now st) with
  | Some cached => (Returned cached, st0)
  | None => (Awaiting c, started key (requestOf k tf iv now c) st0)
  end.
Proof.
  cbv zeta. unfold getCandleHistory, getCandleIntraday, started, requestOf,
    superseded.
  destruct tf;
    match goal with
    | |- context [lookedUp ?key force now st] =>
        fold (lookedUp key force now st);
        destruct (lookedUp key force now st) as [[cached |] st0]
    end; simpl fst; simpl snd; try reflexivity;
    destruct (intervalToApiParams iv);
    match goal with
    | |- context [activeRequests ?s !! ?key] =>
        destruct (activeRequests s !! key)
    end; reflexivity.
Qed.

Lemma intraday_shape k iv force limit now st :
  let key := getCacheKey k TF_1D iv in
  let st0 := snd (lookedUp key force now st) in
  let c := nextController st0 in
  getCandleIntraday k iv force limit now st =
  match fst (lookedUp key force now st) with
  | Some cached => (Returned cached, st0)
  | None =>
      (Awaiting c,
       started key
         (mkRequest CANDLES_INTRADAY k (fst (intervalToApiParams iv))
                    (snd (intervalToApiParams iv)) None limit c) st0)
  end.
Proof.
  cbv zeta. unfold getCandleIntraday, started, superseded.
  fold (lookedUp (getCacheKey k TF_1D iv) force now st).
  destruct (lookedUp (getCacheKey k TF_1D iv) force now st)
    as [[cached |] st0]; simpl fst; simpl snd; try reflexivity.
  destruct (intervalToApiParams iv).
  destruct (activeRequests st0 !! getCacheKey k TF_1D iv); reflexivity.
Qed.

Lemma superseded_fields key st :
  candleCache (superseded key st) = candleCache st /\
  suspended (superseded key st) = suspended st /\
  issued (superseded key st) = issued st /\
  nextController (superseded key st) = nextController st /\
  activeRequests (superseded key st) !! key = None /\
  (forall key', key' <> key ->
     activeRequests (superseded key st) !! key'
     = activeRequests st !! key').
Proof.
  unfold superseded.
  destruct (activeRequests st !! key) as [c |] eqn:E; simpl.
  - do 4 (split; [reflexivity |]). split; [apply lookup_delete_eq |].
    intros key' Hne. apply lookup_delete_ne. congruence.
  - do 4 (split; [reflexivity |]). split; [exact E | reflexivity].
Qed.

Lemma started_fields key r st :
  candleCache (started key r st) = candleCache st /\
  issued (started key r st) = issued st ++ [r] /\
  suspended (started key r st) = <[reqController r := key]> (suspended st) /\
  activeRequests (started key r st) !! key = Some (reqController r) /\
  nextController (started key r st) = S (nextController st).
Proof.
  destruct (superseded_fields key st) as (Hc & Hs & Hi & Hn & _).
  unfold started. simpl. rewrite Hc, Hs, Hi, Hn, lookup_insert_eq. auto.
Qed.

(** ** Cache lifetime *)

(** X13: An entry is served, without a request, to a call that does not force a
    refresh for as long as it is at most [CACHE_TTL] = 300000 ms old; once
    older it is deleted and the call sends a request. *)
Theorem cache_entry_lifetime (k : string) (tf : Timeframe)
    (iv : CandleInterval) (now : Z) (st : State) (e : CacheEntry) :
  candleCache st !! getCacheKey k tf iv = Some e ->
  CACHE_TTL = 300000 /\
  (now - timestamp e <= CACHE_TTL ->
   getCandleHistory k tf iv false now st = (Returned (data e), st)) /\
  (CACHE_TTL < now - timestamp e ->
   exists c st',
     getCandleHistory k tf iv false now st = (Awaiting c, st') /\
     candleCache st' !! getCacheKey k tf iv = None /\
     issued st' = issued st ++ [requestOf k tf iv now c]).
Proof.
  intro He. split; [reflexivity |].
  rewrite call_shape. unfold lookedUp, getCachedData. simpl negb. cbv iota.
  rewrite He. split; intro Hage.
  - replace (now - timestamp e >? CACHE_TTL) with false
      by (symmetry; rewrite Z.gtb_ltb; apply Z.ltb_ge; exact Hage).
    reflexivity.
  - replace (now - timestamp e >? CACHE_TTL) with true
      by (symmetry; rewrite Z.gtb_ltb; apply Z.ltb_lt; exact Hage).
    simpl fst. simpl snd. cbv iota. do 2 eexists. split; [reflexivity |].
    match goal with
    | |- context [started ?key ?r ?s] =>
        destruct (started_fields key r s) as (Hc & Hi & _)
    end.
    rewrite Hc, Hi. simpl. split; [apply lookup_delete_eq | reflexivity].
Qed.

Lemma cache_entry_lifetime_witness :
  getCandleHistory reliance TF_1W I_5m false (mondaySession + 300000)
    (setCachedData (getCacheKey reliance TF_1W I_5m) secondBars
                   mondaySession initial)
  = (Returned secondBars,
     setCachedData (getCacheKey reliance TF_1W I_5m) secondBars
                   mondaySession initial).
Proof.
  apply (proj1 (proj2 (cache_entry_lifetime reliance TF_1W I_5m
                         (mondaySession + 300000) _
                         (mkEntry secondBars mondaySession)
                         (lookup_insert_eq _ _ _)))).
  vm_compute. discriminate.
Defined.

(** X14: A forced refresh never reads the cache: it always sends exactly one
    request, registers its controller under the key, aborts the fetch that
    was registered there, and leaves the cache as it is until the response
    arrives. *)
Theorem forced_refresh_always_fetches (k : string) (tf : Timeframe)
    (iv : CandleInterval) (now : Z) (st : State) :
  let key := getCacheKey k tf iv in
  let c := nextController st in
  exists st',
    getCandleHistory k tf iv true now st = (Awaiting c, st') /\
    candleCache st' = candleCache st /\
    issued st' = issued st ++ [requestOf k tf iv now c] /\
    activeRequests st' !! key = Some c /\
    suspended st' !! c = Some key /\
    (forall c0, activeRequests st !! key = Some c0 -> c0 ∈ aborted st').
Proof.
  cbv zeta. rewrite call_shape. simpl.
  eexists. split; [reflexivity |].
  match goal with
  | |- context [started ?key ?r ?s] =>
      destruct (started_fields key r s) as (Hc & Hi & Hs & Ha & _)
  end.
  rewrite Hc, Hi, Hs, Ha.
  assert (Hr : forall tf', reqController (requestOf k tf' iv now
                                            (nextController st))
                           = nextController st) by (intros []; reflexivity).
  rewrite Hr, lookup_insert_eq. repeat split.
  intros c0 Hc0. unfold started, superseded. rewrite Hc0. simpl.
  set_solver.
Qed.

Lemma forced_refresh_always_fetches_witness :
  0%nat ∈ aborted
    (snd (getCandleHistory reliance TF_1W I_5m true (mondaySession + 10)
            (snd (getCandleHistory reliance TF_1W I_5m true mondaySession
                                   initial)))).
Proof.
  destruct (forced_refresh_always_fetches reliance TF_1W I_5m
              (mondaySession + 10)
              (snd (getCandleHistory reliance TF_1W I_5m true mondaySession
                                     initial)))
    as (st' & Hcall & _ & _ & _ & _ & Hab).
  rewrite Hcall. apply Hab. reflexivity.
Defined.

(** ** Failures *)

(** X15: A fetch that fails, by a non-OK status, by a rejection or because it
    was aborted, resolves to the empty list and leaves every cache entry,
    the one under its own key included, as it was. *)
Theorem failed_fetch_keeps_cache (c : nat) (s : Settlement) (later : Z)
    (st : State) (key : string) :
  suspended st !! c = Some key ->
  (c ∈ aborted st \/ s = Rejected \/ exists d, s = Response false d) ->
  exists st',
    resume c s later st = Some ([], st') /\
    candleCache st' = candleCache st /\
    activeRequests st' !! key = None /\
    suspended st' !! c = None.
Proof.
  intros Hs Hfail. unfold resume. rewrite Hs. simpl.
  destruct (decide (c ∈ aborted st)) as [Hab | Hab].
  - eexists. split; [reflexivity |]. simpl.
    rewrite !lookup_delete_eq. auto.
  - destruct Hfail as [Hin | [-> | [d ->]]]; [contradiction | |];
      (eexists; split; [reflexivity |]; simpl;
       rewrite !lookup_delete_eq; auto).
Qed.

Lemma failed_fetch_keeps_cache_witness :
  exists st',
    resume 0%nat Rejected (mondaySession + 300)
      (snd (getCandleHistory reliance TF_1W I_5m true mondaySession initial))
    = Some ([], st') /\
    candleCache st' = ∅.
Proof.
  destruct (failed_fetch_keeps_cache 0%nat Rejected (mondaySession + 300)
              (snd (getCandleHistory reliance TF_1W I_5m true mondaySession
                                     initial))
              (getCacheKey reliance TF_1W I_5m) eq_refl
              (or_intror (or_introl eq_refl)))
    as (st' & Hr & Hc & _).
  exists st'. split; [exact Hr | rewrite Hc; reflexivity].
Defined.

(** ** What every reachable state satisfies *)

Lemma lookedUp_fields key force now st :
  let st' := snd (lookedUp key force now st) in
  activeRequests st' = activeRequests st /\ aborted st' = aborted st /\
  suspended st' = suspended st /\ nextController st' = nextController st /\
  (forall key' e, candleCache st' !! key' = Some e ->
                  candleCache st !! key' = Some e).
Proof.
  cbv zeta. unfold lookedUp, getCachedData. destruct force; simpl; [auto 6 |].
  destruct (candleCache st !! key) as [e |]; [| simpl; auto 6].
  destruct (now - timestamp e >? CACHE_TTL); simpl; [| auto 6].
  repeat split. intros key' e' H. apply lookup_delete_Some in H. tauto.
Qed.

Lemma lookedUp_keeps key force now st :
  registryOk st /\ controllersFresh st /\ cacheNormalized st ->
  registryOk (snd (lookedUp key force now st)) /\
  controllersFresh (snd (lookedUp key force now st)) /\
  cacheNormalized (snd (lookedUp key force now st)).
Proof.
  intros (Hr & [Hfs Hfa] & Hc).
  destruct (lookedUp_fields key force now st) as (Ha & Hab & Hs & Hn & Hcache).
  unfold registryOk, controllersFresh, cacheNormalized.
  rewrite Ha, Hab, Hs, Hn.
  split; [exact Hr | split; [split; assumption |]].
  intros key' e H. apply (Hc key' e), Hcache, H.
Qed.

Lemma superseded_aborted key st c :
  c ∈ aborted (superseded key st) <->
  c ∈ aborted st \/ activeRequests st !! key = Some c.
Proof.
  unfold superseded. destruct (activeRequests st !! key) as [c0 |]; simpl.
  - rewrite elem_of_union, elem_of_singleton. split.
    + intros [-> | H]; auto.
    + intros [H | [= ->]]; auto.
  - split; [auto | intros [H | H]; [exact H | discriminate]].
Qed.

Lemma started_keeps key r st :
  reqController r = nextController st ->
  registryOk st /\ controllersFresh st /\ cacheNormalized st ->
  registryOk (started key r st) /\ controllersFresh (started key r st) /\
  cacheNormalized (started key r st).
Proof.
  intros Hctl (Hr & [Hfs Hfa] & Hc).
  destruct (superseded_fields key st) as (Hsc & Hss & _ & Hsn & Hsk & Hso).
  assert (Hab : aborted (started key r st) = aborted (superseded key st))
    by reflexivity.
  assert (Hact : activeRequests (started key r st)
                 = <[key := reqController r]>
                     (activeRequests (superseded key st))) by reflexivity.
  destruct (started_fields key r st) as (Hcache & _ & Hsus & _ & Hnext).
  assert (Hold : forall c, c ∈ aborted (superseded key st) ->
                           (c < nextController st)%nat).
  { intros c Hin. apply superseded_aborted in Hin.
    destruct Hin as [Hin | Hin]; [apply Hfa; exact Hin |].
    destruct (Hr _ _ Hin) as [Hs _]. apply (Hfs _ _ Hs). }
  split; [| split].
  - intros key' c H. rewrite Hact in H. rewrite Hsus, Hab.
    destruct (decide (key' = key)) as [-> | Hne].
    + rewrite lookup_insert_eq in H. injection H as <-.
      rewrite lookup_insert_eq. split; [reflexivity |].
      intro Hin. apply Hold in Hin. lia.
    + rewrite lookup_insert_ne in H by congruence.
      rewrite (Hso _ Hne) in H. destruct (Hr _ _ H) as [Hs Hna].
      assert (c <> reqController r)
        by (pose proof (Hfs _ _ Hs); lia).
      rewrite lookup_insert_ne by congruence. split; [exact Hs |].
      intro Hin. apply superseded_aborted in Hin.
      destruct Hin as [Hin | Hin]; [contradiction |].
      destruct (Hr _ _ Hin) as [Hs' _]. congruence.
  - split.
    + intros c key' H. rewrite Hsus in H. rewrite Hnext.
      destruct (decide (c = reqController r)) as [-> | Hne]; [lia |].
      rewrite lookup_insert_ne in H by congruence.
      pose proof (Hfs _ _ H). lia.
    + intros c H. rewrite Hab in H. rewrite Hnext. apply Hold in H. lia.
  - intros key' e H. rewrite Hcache in H. apply (Hc _ _ H).
Qed.

Lemma resume_keeps c s now st res st' :
  resume c s now st = Some (res, st') ->
  registryOk st /\ controllersFresh st /\ cacheNormalized st ->
  registryOk st' /\ controllersFresh st' /\ cacheNormalized st'.
Proof.
  intros Hres (Hr & [Hfs Hfa] & Hc). unfold resume in Hres.
  destruct (suspended st !! c) as [key |] eqn:Hs; [| discriminate].
  assert (Hgoal : forall cache,
            (forall key' e, cache !! key' = Some e ->
                            exists raw, data e = cleanChartData raw) ->
            let st1 := mkState cache (delete key (activeRequests st))
                               (aborted st) (delete c (suspended st))
                               (issued st) (nextController st) in
            registryOk st1 /\ controllersFresh st1 /\ cacheNormalized st1).
  { intros cache Hcache. cbv zeta. split; [| split].
    - intros key' c' H. simpl in *.
      apply lookup_delete_Some in H. destruct H as [Hne H].
      destruct (Hr _ _ H) as [Hs' Hna]. split; [| exact Hna].
      rewrite lookup_delete_ne; [exact Hs' |]. congruence.
    - split; simpl.
      + intros c' key' H. apply lookup_delete_Some in H.
        apply (Hfs c' key'). tauto.
      + exact Hfa.
    - exact Hcache. }
  simpl in Hres.
  destruct (decide (c ∈ aborted st)).
  - injection Hres as <- <-. apply (Hgoal (candleCache st)). exact Hc.
  - destruct s as [[|] d |]; injection Hres as <- <-.
    + apply (Hgoal (<[key := mkEntry (cleanChartData d) now]> (candleCache st))).
      intros key' e H. apply lookup_insert_Some in H.
      destruct H as [[_ <-] | [_ H]]; [exists d; reflexivity |].
      apply (Hc _ _ H).
    + apply (Hgoal (candleCache st)). exact Hc.
    + apply (Hgoal (candleCache st)). exact Hc.
Qed.

Lemma step_keeps now a st st' :
  step now a st = Some st' ->
  registryOk st /\ controllersFresh st /\ cacheNormalized st ->
  registryOk st' /\ controllersFresh st' /\ cacheNormalized st'.
Proof.
  intros Hstep Hinv. destruct a as [k tf iv f | k iv f lim | c s];
    simpl in Hstep.
  - injection Hstep as <-. rewrite call_shape.
    pose proof (lookedUp_keeps (getCacheKey k tf iv) f now st Hinv) as H0.
    destruct (fst (lookedUp (getCacheKey k tf iv) f now st));
      [exact H0 |].
    simpl snd. apply started_keeps; [| exact H0].
    destruct tf; reflexivity.
  - injection Hstep as <-. rewrite intraday_shape.
    pose proof (lookedUp_keeps (getCacheKey k TF_1D iv) f now st Hinv) as H0.
    destruct (fst (lookedUp (getCacheKey k TF_1D iv) f now st));
      [exact H0 |].
    simpl snd. apply started_keeps; [reflexivity | exact H0].
  - destruct (resume c s now st) as [[res st1] |] eqn:Hres; [| discriminate].
    injection Hstep as <-. exact (resume_keeps _ _ _ _ _ _ Hres Hinv).
Qed.

Lemma run_keeps trace st st' :
  run trace st = Some st' ->
  registryOk st /\ controllersFresh st /\ cacheNormalized st ->
  registryOk st' /\ controllersFresh st' /\ cacheNormalized st'.
Proof.
  revert st. induction trace as [| [now a] trace IH]; intros st Hrun Hinv.
  - injection Hrun as <-. exact Hinv.
  - simpl in Hrun.
    destruct (step now a st) as [st1 |] eqn:Hstep; [| discriminate].
    apply (IH st1 Hrun). exact (step_keeps _ _ _ _ Hstep Hinv).
Qed.

Lemma initial_keeps :
  registryOk initial /\ controllersFresh initial /\ cacheNormalized initial.
Proof.
  split; [| split; [split |]].
  - intros key c H. simpl in H. rewrite lookup_empty in H. discriminate.
  - intros c key H. simpl in H. rewrite lookup_empty in H. discriminate.
  - intros c H. simpl in H. set_solver.
  - intros key e H. simpl in H. rewrite lookup_empty in H. discriminate.
Qed.

(** X16: After any sequence of calls and settlements, every controller in
    [activeRequests] belongs to a call that is still suspended on that key
    and was not aborted. *)
Theorem registry_names_live_fetches (trace : list (Z * Action)) (st : State)
    (key : string) (c : nat) :
  run trace initial = Some st ->
  activeRequests st !! key = Some c ->
  suspended st !! c = Some key /\ (c ∉ aborted st) /\
  (c < nextController st)%nat.
Proof.
  intros Hrun Hreg.
  destruct (run_keeps _ _ _ Hrun initial_keeps) as (Hr & [Hfs _] & _).
  destruct (Hr _ _ Hreg) as [Hs Hna].
  repeat split; [exact Hs | exact Hna | exact (Hfs _ _ Hs)].
Qed.


Lemma registry_names_live_fetches_witness :
  suspended
    (snd (getCandleHistory reliance TF_1W I_5m true mondaySession initial))
    !! 0%nat = Some (getCacheKey reliance TF_1W I_5m).
Proof.
  apply (registry_names_live_fetches
           [(mondaySession, CallHistory reliance TF_1W I_5m true)]
           _ (getCacheKey reliance TF_1W I_5m) 0%nat);
    vm_compute; reflexivity.
Defined.


(** ** Two overlapping fetches *)

Lemma forced_shape k tf iv now st :
  getCandleHistory k tf iv true now st
  = (Awaiting (nextController st),
     started (getCacheKey k tf iv)
             (requestOf k tf iv now (nextController st)) st).
Proof. rewrite call_shape. reflexivity. Qed.

Lemma requestOf_controller k tf iv now c :
  reqController (requestOf k tf iv now c) = c.
Proof. destruct tf; reflexivity. Qed.

Lemma resume_aborted c s later st key :
  suspended st !! c = Some key -> c ∈ aborted st ->
  resume c s later st
  = Some ([], withActive (delete key) (resumed c st)).
Proof.
  intros Hs Hab. unfold resume. rewrite Hs. simpl.
  destruct (decide (c ∈ aborted st)); [reflexivity | contradiction].
Qed.

Lemma resume_ok c d later st key :
  suspended st !! c = Some key -> c ∉ aborted st ->
  resume c (Response true d) later st
  = Some (cleanChartData d,
          withActive (delete key)
            (setCachedData key (cleanChartData d) later (resumed c st))).
Proof.
  intros Hs Hab. unfold resume. rewrite Hs. simpl.
  destruct (decide (c ∈ aborted st)); [contradiction | reflexivity].
Qed.

(** X18: Two forced fetches for one key, the second started while the first is
    in flight: the first is aborted, and in whichever order the two settle
    the cache ends with the second fetch's cleaned response. *)
Theorem second_of_two_fetches_wins (trace : list (Z * Action)) (st : State)
    (k : string) (tf : Timeframe) (iv : CandleInterval)
    (t1 t2 ta tb : Z) (sa : Settlement) (d : list CandleData) :
  run trace initial = Some st ->
  let key := getCacheKey k tf iv in
  let a := nextController st in
  let b := S (nextController st) in
  exists st1 st2,
    getCandleHistory k tf iv true t1 st = (Awaiting a, st1) /\
    getCandleHistory k tf iv true t2 st1 = (Awaiting b, st2) /\
    a ∈ aborted st2 /\
    (exists st3 st4,
       resume a sa ta st2 = Some ([], st3) /\
       resume b (Response true d) tb st3 = Some (cleanChartData d, st4) /\
       candleCache st4 !! key = Some (mkEntry (cleanChartData d) tb)) /\
    (exists st3 st4,
       resume b (Response true d) tb st2 = Some (cleanChartData d, st3) /\
       resume a sa ta st3 = Some ([], st4) /\
       candleCache st4 !! key = Some (mkEntry (cleanChartData d) tb)).
Proof.
  intros Hrun. cbv zeta.
  destruct (run_keeps _ _ _ Hrun initial_keeps) as (Hr & [Hfs Hfa] & _).
  set (key := getCacheKey k tf iv). set (a := nextController st).
  set (st1 := started key (requestOf k tf iv t1 a) st).
  destruct (started_fields key (requestOf k tf iv t1 a) st)
    as (_ & _ & Hs1 & Ha1 & Hn1).
  rewrite requestOf_controller in Hs1, Ha1. fold st1 in Hs1, Ha1, Hn1.
  set (st2 := started key (requestOf k tf iv t2 (S a)) st1).
  destruct (started_fields key (requestOf k tf iv t2 (S a)) st1)
    as (_ & _ & Hs2 & _ & _).
  rewrite requestOf_controller in Hs2. fold st2 in Hs2.
  assert (Hab2 : forall c, c ∈ aborted st2 <->
                           c = a \/ c ∈ aborted (superseded key st)).
  { intro c. change (aborted st2) with (aborted (superseded key st1)).
    rewrite superseded_aborted, Ha1.
    change (aborted st1) with (aborted (superseded key st)).
    split; [intros [H | [= <-]]; auto | intros [-> | H]; auto]. }
  assert (Hlow : forall c, c ∈ aborted (superseded key st) -> (c < a)%nat).
  { intros c Hin. apply superseded_aborted in Hin.
    destruct Hin as [Hin | Hin]; [apply Hfa; exact Hin |].
    destruct (Hr _ _ Hin) as [Hs _]. apply (Hfs _ _ Hs). }
  assert (Ha_in : a ∈ aborted st2) by (apply Hab2; auto).
  assert (Hb_out : S a ∉ aborted st2).
  { intro Hin. apply Hab2 in Hin. destruct Hin as [Hin | Hin]; [lia |].
    apply Hlow in Hin. lia. }
  assert (Hsa : suspended st2 !! a = Some key).
  { rewrite Hs2, lookup_insert_ne by lia. rewrite Hs1.
    apply lookup_insert_eq. }
  assert (Hsb : suspended st2 !! S a = Some key)
    by (rewrite Hs2; apply lookup_insert_eq).
  exists st1, st2. split; [apply forced_shape |].
  split; [rewrite forced_shape, Hn1; reflexivity |].
  split; [exact Ha_in |]. split.
  - do 2 eexists. split; [apply (resume_aborted _ _ _ _ _ Hsa Ha_in) |].
    split.
    + apply resume_ok; simpl; [| exact Hb_out].
      rewrite lookup_delete_ne by lia. exact Hsb.
    + simpl. apply lookup_insert_eq.
  - do 2 eexists. split; [apply (resume_ok _ _ _ _ _ Hsb Hb_out) |].
    split.
    + apply resume_aborted; simpl; [| exact Ha_in].
      rewrite lookup_delete_ne by lia. exact Hsa.
    + simpl. apply lookup_insert_eq.
Qed.

Lemma second_of_two_fetches_wins_witness :
  exists st1 st2 st3 st4,
    getCandleHistory reliance TF_1W I_5m true mondaySession initial
    = (Awaiting 0%nat, st1) /\
    getCandleHistory reliance TF_1W I_5m true (mondaySession + 10) st1
    = (Awaiting 1%nat, st2) /\
    resume 1%nat (Response true thirdBars) (mondaySession + 300) st2
    = Some (cleanChartData thirdBars, st3) /\
    resume 0%nat (Response true secondBars) (mondaySession + 400) st3
    = Some ([], st4) /\
    candleCache st4 !! getCacheKey reliance TF_1W I_5m
    = Some (mkEntry (cleanChartData thirdBars) (mondaySession + 300)).
Proof.
  destruct (second_of_two_fetches_wins [] initial reliance TF_1W I_5m
              mondaySession (mondaySession + 10) (mondaySession + 400)
              (mondaySession + 300) (Response true secondBars) thirdBars
              eq_refl)
    as (st1 & st2 & H1 & H2 & _ & _ & (st3 & st4 & H3 & H4 & H5)).
  exists st1, st2, st3, st4. auto.
Defined.

(** ** Requests *)



End FetcherLaws.

(** * More about the live tick stream *)
Module StreamLaws.
Import Stream Invariants StreamSpec Samples.

Lemma subscribeToInstruments_fields keys st :
  let st' := subscribeToInstruments keys st in
  wsConnection st' = wsConnection st /\
  wsReconnectAttempts st' = wsReconnectAttempts st /\
  wsReconnectTimer st' = wsReconnectTimer st /\
  sockets st' = sockets st /\ timers st' = timers st /\
  statuses st' = statuses st /\
  nextSocket st' = nextSocket st /\ nextTimer st' = nextTimer st.
Proof.
  cbv zeta. unfold subscribeToInstruments.
  destruct (wsConnection st) as [s |] eqn:E; [| rewrite E; repeat split].
  destruct (isOpen st s); simpl; rewrite E; repeat split.
Qed.










(** X21: Without a stored token nothing is attempted: a connect call made while
    no connection is held, by the application or by the reconnect timer,
    creates no socket and schedules no retry; it only reports [error]. *)
Theorem connect_without_token (keys : list string) (token : option string)
    (now : Z) (st : State) :
  wsConnection st = None ->
  token = None \/ token = Some ""%string ->
  connectMarketWebSocket keys token st = onConnectionChange error st /\
  (forall t d,
     timers st !! t = Some (mkTimer d keys) ->
     exists st',
       step now token (TimerFired t) st = Some st' /\
       wsConnection st' = None /\ sockets st' = sockets st /\
       timers st' = delete t (timers st) /\
       nextTimer st' = nextTimer st /\
       statuses st' = statuses st ++ [error]).
Proof.
  intros Hc Htok. split.
  - unfold connectMarketWebSocket. rewrite Hc.
    destruct Htok as [-> | ->]; reflexivity.
  - intros t d Ht. eexists. split.
    + unfold step. rewrite Ht. reflexivity.
    + unfold connectMarketWebSocket. simpl. rewrite Hc.
      destruct Htok as [-> | ->]; simpl; rewrite Hc; auto 6.
Qed.

Lemma connect_without_token_witness :
  connectMarketWebSocket [reliance] None initial
  = onConnectionChange error initial.
Proof.
  apply (proj1 (connect_without_token [reliance] None 0 initial eq_refl
                  (or_introl eq_refl))).
Defined.

(** X22: A connect call made while a connection is held never opens a second
    socket.  If that connection is open, one [subscribe] frame with the
    keys of the call is sent on it; if it is still being established, the
    call changes nothing and its keys are lost. *)
Theorem connect_on_held_connection (keys : list string)
    (token : option string) (st : State) (socket : nat) :
  wsConnection st = Some socket ->
  let st' := connectMarketWebSocket keys token st in
  sockets st' = sockets st /\ nextSocket st' = nextSocket st /\
  wsConnection st' = Some socket /\
  (isOpen st socket = true ->
   sent st' = sent st ++ [(socket, mkMessage subscribe full keys)]) /\
  (isOpen st socket = false -> st' = st).
Proof.
  intro Hc. cbv zeta. unfold connectMarketWebSocket. rewrite Hc.
  destruct (subscribeToInstruments_fields keys st)
    as (H1 & _ & _ & H2 & _ & _ & H3 & _).
  rewrite H1, H2, H3, Hc. repeat split.
  - intro Hopen. unfold subscribeToInstruments. rewrite Hc, Hopen.
    reflexivity.
  - intro Hopen. unfold subscribeToInstruments. rewrite Hc, Hopen.
    reflexivity.
Qed.

Lemma connect_on_held_connection_witness :
  connectMarketWebSocket [infosys] jwt
    (connectMarketWebSocket [reliance] jwt initial)
  = connectMarketWebSocket [reliance] jwt initial.
Proof.
  apply (proj2 (proj2 (proj2 (proj2
           (connect_on_held_connection [infosys] jwt
              (connectMarketWebSocket [reliance] jwt initial) 0%nat
              eq_refl))))).
  reflexivity.
Defined.

(** X23: [disconnectMarketWebSocket] sends no frame and reports no status, and
    calling it a second time changes nothing. *)
Theorem disconnect_idempotent (st : State) :
  disconnectMarketWebSocket (disconnectMarketWebSocket st)
  = disconnectMarketWebSocket st /\
  sent (disconnectMarketWebSocket st) = sent st /\
  statuses (disconnectMarketWebSocket st) = statuses st /\
  nextSocket (disconnectMarketWebSocket st) = nextSocket st.
Proof.
  destruct st as [c n t ss tm se stt ns nt].
  unfold disconnectMarketWebSocket.
  destruct t as [t |], c as [s |]; simpl; unfold closeSocket; simpl;
    try (destruct (ss !! s) as [[[] keys] |]; simpl); auto.
Qed.

End StreamLaws.

(** * More about the polling fallback *)
Module PollingLaws.
Import Polling Invariants FetcherLaws Samples.

Lemma stopPollingFallback_oneTimer st :
  oneTimer st -> oneTimer (stopPollingFallback st).
Proof.
  unfold oneTimer, stopPollingFallback.
  destruct (pollingInterval st) as [id |] eqn:E; simpl.
  - intros (k & iv & -> & _). split; [apply delete_singleton_eq | reflexivity].
  - rewrite E. auto.
Qed.

Lemma stopPollingFallback_fields st :
  fetcher (stopPollingFallback st) = fetcher st /\
  pollingInterval (stopPollingFallback st) = None /\
  polls (stopPollingFallback st) = polls st /\
  updates (stopPollingFallback st) = updates st /\
  nextInterval (stopPollingFallback st) = nextInterval st.
Proof.
  unfold stopPollingFallback.
  destruct (pollingInterval st) eqn:E; simpl; rewrite ?E; auto.
Qed.

(** The poll closure during the session: one forced intraday request. *)
Lemma poll_in_hours id k iv now st :
  isWithinMarketHours now = true ->
  let c := Fetcher.nextController (fetcher st) in
  let key := Fetcher.getCacheKey k Fetcher.TF_1D iv in
  let r := Fetcher.mkRequest Fetcher.CANDLES_INTRADAY k
             (fst (Fetcher.intervalToApiParams iv))
             (snd (Fetcher.intervalToApiParams iv)) None 500 c in
  poll id k iv now st =
  mkState (started key r (fetcher st)) (pollingInterval st)
          (currentPollingInstrument st) (intervals st) (nextInterval st)
          (<[c := id]> (polls st)) (updates st).
Proof.
  intro Hin. cbv zeta. unfold poll. rewrite Hin. simpl negb. cbv iota.
  rewrite intraday_shape. reflexivity.
Qed.

Lemma poll_after_hours id k iv now st :
  isWithinMarketHours now = false ->
  poll id k iv now st = stopPollingFallback st.
Proof. intro Hout. unfold poll. rewrite Hout. reflexivity. Qed.

(** X24: Outside the session [startPollingFallback] only stops the poller that
    was running: no timer is left and no request is sent.  During the
    session it replaces that poller by a new one for the given instrument
    and interval and polls once at once, with a forced intraday request of
    limit 500. *)
Theorem startPollingFallback_starts_one (k : string)
    (iv : Fetcher.CandleInterval) (now : Z) (st : State) :
  oneTimer st ->
  let st' := startPollingFallback k iv now st in
  (isWithinMarketHours now = false ->
   st' = stopPollingFallback st /\ intervals st' = ∅ /\
   fetcher st' = fetcher st) /\
  (isWithinMarketHours now = true ->
   pollingInterval st' = Some (nextInterval st) /\
   intervals st' = {[nextInterval st := (k, iv)]} /\
   currentPollingInstrument st' = Some k /\
   Fetcher.issued (fetcher st')
   = Fetcher.issued (fetcher st) ++
     [Fetcher.mkRequest Fetcher.CANDLES_INTRADAY k
        (fst (Fetcher.intervalToApiParams iv))
        (snd (Fetcher.intervalToApiParams iv)) None 500
        (Fetcher.nextController (fetcher st))] /\
   polls st' !! Fetcher.nextController (fetcher st)
   = Some (nextInterval st)).
Proof.
  intro Hone. cbv zeta.
  assert (Hstop : match pollingInterval st with
                  | Some _ => stopPollingFallback st
                  | None => st
                  end = stopPollingFallback st).
  { unfold stopPollingFallback. destruct (pollingInterval st); reflexivity. }
  pose proof (stopPollingFallback_oneTimer st Hone) as Hone'.
  destruct (stopPollingFallback_fields st) as (Hf & Hp & Hpo & Hu & Hn).
  unfold oneTimer in Hone'. rewrite Hp in Hone'. destruct Hone' as [Hi Hcur].
  unfold startPollingFallback. rewrite Hstop. split; intro Hh; rewrite Hh.
  - simpl. rewrite Hi, Hf. auto.
  - simpl negb. cbv iota. rewrite poll_in_hours by exact Hh.
    cbn [fetcher polls intervals pollingInterval currentPollingInstrument
         nextInterval].
    rewrite Hn, Hi, Hf.
    split; [reflexivity |]. split; [reflexivity |]. split; [reflexivity |].
    split.
    + apply (started_fields _ _ (fetcher st)).
    + apply lookup_insert_eq.
Qed.

Lemma startPollingFallback_starts_one_witness :
  intervals (startPollingFallback reliance Fetcher.I_5m mondaySession initial)
  = {[0%nat := (reliance, Fetcher.I_5m)]}.
Proof.
  apply (proj2 (startPollingFallback_starts_one reliance Fetcher.I_5m
                  mondaySession initial (conj eq_refl eq_refl))).
  reflexivity.
Defined.

Lemma step_oneTimer now a st st' :
  step now a st = Some st' -> oneTimer st -> oneTimer st'.
Proof.
  intros Hstep Hone. destruct a as [k iv | | id | a]; simpl in Hstep.
  - injection Hstep as <-.
    assert (Hstop : match pollingInterval st with
                    | Some _ => stopPollingFallback st
                    | None => st
                    end = stopPollingFallback st).
    { unfold stopPollingFallback. destruct (pollingInterval st); reflexivity. }
    pose proof (stopPollingFallback_oneTimer st Hone) as Hone'.
    destruct (stopPollingFallback_fields st) as (_ & Hp & _).
    unfold startPollingFallback. rewrite Hstop.
    destruct (isWithinMarketHours now) eqn:Hh; simpl negb; cbv iota.
    + rewrite poll_in_hours by exact Hh. unfold oneTimer. simpl.
      unfold oneTimer in Hone'. rewrite Hp in Hone'.
      destruct Hone' as [-> _]. exists k, iv. auto.
    + exact Hone'.
  - injection Hstep as <-. apply stopPollingFallback_oneTimer, Hone.
  - destruct (intervals st !! id) as [[k iv] |]; [| discriminate].
    injection Hstep as <-.
    destruct (isWithinMarketHours now) eqn:Hh.
    + rewrite poll_in_hours by exact Hh. exact Hone.
    + rewrite poll_after_hours by exact Hh.
      apply stopPollingFallback_oneTimer, Hone.
  - destruct a as [k tf iv f | k iv f lim | c s]; simpl in Hstep.
    + injection Hstep as <-. exact Hone.
    + injection Hstep as <-. exact Hone.
    + unfold settle in Hstep.
      destruct (Fetcher.resume c s now (fetcher st)) as [[res f] |];
        [| discriminate].
      injection Hstep as <-. destruct (polls st !! c); exact Hone.
Qed.

(** X25: Whatever is started, stopped, ticked or settled, at most one polling
    timer is active, and [pollingInterval] and [currentPollingInstrument]
    name it; when [pollingInterval] is empty no timer is left behind. *)
Theorem one_poller_at_a_time (trace : list (Z * Action)) (st : State) :
  run trace initial = Some st ->
  oneTimer st /\
  (forall id1 id2 p1 p2,
     intervals st !! id1 = Some p1 -> intervals st !! id2 = Some p2 ->
     id1 = id2 /\ pollingInterval st = Some id1).
Proof.
  intro Hrun.
  assert (Hone : oneTimer st).
  { assert (Hinit : oneTimer initial) by (split; reflexivity).
    revert Hrun Hinit. generalize initial.
    induction trace as [| [now a] trace IH]; intros st0 Hrun Hinit.
    - injection Hrun as <-. exact Hinit.
    - simpl in Hrun.
      destruct (step now a st0) as [st1 |] eqn:Hstep; [| discriminate].
      exact (IH _ Hrun (step_oneTimer _ _ _ _ Hstep Hinit)). }
  split; [exact Hone |]. intros id1 id2 p1 p2 H1 H2.
  unfold oneTimer in Hone. destruct (pollingInterval st) as [id |].
  - destruct Hone as (k & iv & Hi & _). rewrite Hi in H1, H2.
    apply lookup_singleton_Some in H1, H2.
    destruct H1 as [<- _], H2 as [<- _]. auto.
  - destruct Hone as [Hi _]. rewrite Hi, lookup_empty in H1. discriminate.
Qed.

Lemma one_poller_at_a_time_witness :
  oneTimer
    (startPollingFallback infosys Fetcher.I_1m (mondaySession + 100)
       (startPollingFallback reliance Fetcher.I_5m mondaySession initial)).
Proof.
  apply (one_poller_at_a_time
           [(mondaySession, Start reliance Fetcher.I_5m);
            (mondaySession + 100, Start infosys Fetcher.I_1m)]).
  reflexivity.
Defined.

(** X26: A tick of the polling timer during the session sends one intraday
    request with limit 500 whatever the cache holds, and leaves the cache
    and the timer as they are; a tick after the session stops the poller
    and sends nothing. *)
Theorem poll_tick (id : nat) (k : string) (iv : Fetcher.CandleInterval)
    (now : Z) (st : State) :
  intervals st !! id = Some (k, iv) ->
  exists st',
    step now (Tick id) st = Some st' /\
    (isWithinMarketHours now = true ->
     Fetcher.issued (fetcher st')
     = Fetcher.issued (fetcher st) ++
       [Fetcher.mkRequest Fetcher.CANDLES_INTRADAY k
          (fst (Fetcher.intervalToApiParams iv))
          (snd (Fetcher.intervalToApiParams iv)) None 500
          (Fetcher.nextController (fetcher st))] /\
     Fetcher.candleCache (fetcher st') = Fetcher.candleCache (fetcher st) /\
     polls st' !! Fetcher.nextController (fetcher st) = Some id /\
     intervals st' = intervals st /\
     pollingInterval st' = pollingInterval st) /\
    (isWithinMarketHours now = false ->
     st' = stopPollingFallback st /\ pollingInterval st' = None /\
     fetcher st' = fetcher st).
Proof.
  intro Hi. eexists. split; [unfold step; rewrite Hi; reflexivity |].
  split; intro Hh.
  - rewrite poll_in_hours by exact Hh.
    cbn [fetcher polls intervals pollingInterval].
    match goal with
    | |- context [started ?key ?r ?s] =>
        destruct (started_fields key r s) as (Hc & His & _)
    end.
    rewrite Hc, His, lookup_insert_eq. auto 6.
  - rewrite poll_after_hours by exact Hh.
    destruct (stopPollingFallback_fields st) as (Hf & Hp & _). auto.
Qed.

Lemma poll_tick_witness :
  exists st',
    step (mondaySession + 7000) (Tick 0%nat)
         (startPollingFallback reliance Fetcher.I_5m mondaySession initial)
    = Some st' /\
    length (Fetcher.issued (fetcher st')) = 2%nat.
Proof.
  destruct (poll_tick 0%nat reliance Fetcher.I_5m (mondaySession + 7000)
              (startPollingFallback reliance Fetcher.I_5m mondaySession
                                    initial) eq_refl)
    as (st' & Hstep & Hin & _).
  exists st'. split; [exact Hstep |].
  destruct (Hin eq_refl) as (Hi & _). rewrite Hi. reflexivity.
Defined.

(** X27: Every poll that settles hands one list to [onUpdate], also after the
    poller was stopped: the cleaned response, which is cached as well, when
    the fetch succeeded, and the empty list when it failed or when its
    controller was aborted, as it is by the next tick for the same key. *)
Theorem settled_poll_updates_once (c id : nat) (s : Fetcher.Settlement)
    (now : Z) (st : State) (key : string) :
  polls st !! c = Some id ->
  Fetcher.suspended (fetcher st) !! c = Some key ->
  exists st' res,
    settle c s now st = Some st' /\
    updates st' = updates st ++ [(id, res)] /\
    polls st' !! c = None /\
    pollingInterval st' = pollingInterval st /\
    (c ∈ Fetcher.aborted (fetcher st) -> res = []) /\
    (c ∉ Fetcher.aborted (fetcher st) ->
     forall d, s = Fetcher.Response true d ->
       res = cleanChartData d /\
       Fetcher.candleCache (fetcher st') !! key
       = Some (Fetcher.mkEntry (cleanChartData d) now)) /\
    (s = Fetcher.Rejected \/ (exists d, s = Fetcher.Response false d) ->
     res = []).
Proof.
  intros Hp Hs. unfold settle.
  destruct (FetcherSpec.resume_suspended c s now (fetcher st) key Hs)
    as (res & f & Hr & _ & _ & Hab & Hok).
  rewrite Hr, Hp. eexists. exists res. split; [reflexivity |]. simpl.
  split; [reflexivity |]. split; [apply lookup_delete_eq |].
  split; [reflexivity |]. split; [intro H; apply (Hab H) |].
  split; [exact Hok |].
  intros Hfail. unfold Fetcher.resume in Hr. rewrite Hs in Hr. simpl in Hr.
  destruct (decide (c ∈ Fetcher.aborted (fetcher st)));
    [congruence |].
  destruct Hfail as [-> | [d ->]]; congruence.
Qed.

Lemma settled_poll_updates_once_witness :
  exists st' res,
    settle 0%nat Fetcher.Rejected (mondaySession + 300)
      (startPollingFallback reliance Fetcher.I_5m mondaySession initial)
    = Some st' /\
    updates st' = [(0%nat, res)] /\ res = [].
Proof.
  destruct (settled_poll_updates_once 0%nat 0%nat Fetcher.Rejected
              (mondaySession + 300)
              (startPollingFallback reliance Fetcher.I_5m mondaySession
                                    initial)
              (Fetcher.getCacheKey reliance Fetcher.TF_1D Fetcher.I_5m)
              eq_refl eq_refl)
    as (st' & res & Hs & Hu & _ & _ & _ & _ & Hfail).
  exists st', res. split; [exact Hs |]. split; [exact Hu |].
  apply Hfail. left. reflexivity.
Defined.

End PollingLaws.

(** * More about the clean-up *)
Module ServiceLaws.
Import Service Invariants FetcherLaws Samples.

Lemma abortAll_fields f :
  Fetcher.activeRequests (abortAll f) = ∅ /\
  Fetcher.candleCache (abortAll f) = Fetcher.candleCache f /\
  Fetcher.suspended (abortAll f) = Fetcher.suspended f /\
  Fetcher.issued (abortAll f) = Fetcher.issued f /\
  (forall c, c ∈ Fetcher.aborted (abortAll f) <->
             c ∈ Fetcher.aborted f \/
             exists key, Fetcher.activeRequests f !! key = Some c).
Proof.
  unfold abortAll.
  set (P := fun (r : Fetcher.State) (m : gmap string nat) =>
              Fetcher.candleCache r = Fetcher.candleCache f /\
              Fetcher.suspended r = Fetcher.suspended f /\
              Fetcher.issued r = Fetcher.issued f /\
              (forall c, c ∈ Fetcher.aborted r <->
                         c ∈ Fetcher.aborted f \/
                         exists key, m !! key = Some c)).
  assert (HP : P (map_fold (fun _ controller f0 =>
                              Fetcher.abort controller f0) f
                           (Fetcher.activeRequests f))
                 (Fetcher.activeRequests f)).
  { apply (map_fold_weak_ind P).
    - repeat split; try reflexivity.
      + auto.
      + intros [H | [key H]]; [exact H |].
        rewrite lookup_empty in H. discriminate.
    - intros key c m r Hnone (Hc & Hs & Hi & Hab). repeat split;
        try assumption.
      + simpl. rewrite elem_of_union, elem_of_singleton, Hab.
        intros [-> | [H | [key' H]]]; auto.
        * right. exists key. apply lookup_insert_eq.
        * right. exists key'. rewrite lookup_insert_ne; [exact H |].
          intros ->. congruence.
      + simpl. rewrite elem_of_union, elem_of_singleton, Hab.
        intros [H | [key' H]]; auto.
        apply lookup_insert_Some in H.
        destruct H as [[_ <-] | [_ H]]; eauto. }
  destruct HP as (Hc & Hs & Hi & Hab). simpl. auto.
Qed.

(** X28: [cleanupChartDataService] drops the connection, the reconnect timer,
    the retry count and the poller, empties the registry and aborts every
    fetch registered in it, so that such a fetch resolves to the empty list
    and stores nothing; the cache itself is kept. *)
Theorem cleanup_cancels_registered_fetches (ws : Stream.State)
    (ps : Polling.State) :
  let ws' := fst (cleanupChartDataService (ws, ps)) in
  let f := Polling.fetcher ps in
  let f' := Polling.fetcher (snd (cleanupChartDataService (ws, ps))) in
  Stream.wsConnection ws' = None /\ Stream.wsReconnectTimer ws' = None /\
  Stream.wsReconnectAttempts ws' = 0%nat /\
  Polling.pollingInterval (snd (cleanupChartDataService (ws, ps))) = None /\
  Fetcher.activeRequests f' = ∅ /\
  Fetcher.candleCache f' = Fetcher.candleCache f /\
  (forall key c s later,
     Fetcher.activeRequests f !! key = Some c ->
     Fetcher.suspended f !! c = Some key ->
     exists f'',
       Fetcher.resume c s later f' = Some ([], f'') /\
       Fetcher.candleCache f'' = Fetcher.candleCache f).
Proof.
  cbv zeta. unfold cleanupChartDataService. simpl fst. simpl snd.
  destruct (StreamSpec.disconnectMarketWebSocket_clears ws)
    as (Ht & Hn & Hc & _).
  destruct (PollingLaws.stopPollingFallback_fields ps) as (Hf & Hp & _).
  cbn [Polling.fetcher Polling.setFetcher Polling.pollingInterval].
  rewrite Hf.
  destruct (abortAll_fields (Polling.fetcher ps))
    as (Ha & Hcache & Hs & _ & Hab).
  repeat split; try assumption.
  intros key c s later Hreg Hsus.
  assert (Hin : c ∈ Fetcher.aborted (abortAll (Polling.fetcher ps)))
    by (apply Hab; right; exists key; exact Hreg).
  rewrite <- Hs in Hsus.
  rewrite (resume_aborted _ s later _ _ Hsus Hin).
  eexists. split; [reflexivity |]. simpl. exact Hcache.
Qed.

Lemma cleanup_cancels_registered_fetches_witness :
  exists f'',
    Fetcher.resume 0%nat (Fetcher.Response true secondBars)
      (mondaySession + 300)
      (Polling.fetcher
         (snd (cleanupChartDataService
                 (liveStream,
                  Polling.startPollingFallback reliance Fetcher.I_5m
                    mondaySession Polling.initial))))
    = Some ([], f'') /\
    Fetcher.candleCache f'' = ∅.
Proof.
  destruct (proj2 (proj2 (proj2 (proj2 (proj2 (proj2
              (cleanup_cancels_registered_fetches liveStream
                 (Polling.startPollingFallback reliance Fetcher.I_5m
                    mondaySession Polling.initial)))))))
              (Fetcher.getCacheKey reliance Fetcher.TF_1D Fetcher.I_5m)
              0%nat (Fetcher.Response true secondBars) (mondaySession + 300)
              eq_refl eq_refl)
    as (f'' & Hr & Hc).
  exists f''. split; [exact Hr | rewrite Hc; reflexivity].
Defined.

End ServiceLaws.

(** * More about the chart view *)
Module ChartLaws.
Import Chart Fetcher Invariants FetcherSpec FetcherLaws.

Lemma applyTick_twice e c : applyTick e (applyTick e c) = applyTick e c.
Proof.
  destruct e as [[l |] [h |] [lo |] [v |]], c as [[] ? ?]; reflexivity.
Qed.

Lemma handleTick_cons e c c' rest :
  handleTick e (c :: c' :: rest) = c :: handleTick e (c' :: rest).
Proof. reflexivity. Qed.

(** X29: [handleTick] rewrites the last candle only: the series keeps its length
    and every [time], [ts] and [open]; all candles but the last are
    untouched; the last one takes the fields the tick carries; an empty
    series stays empty; and applying the same tick twice is applying it
    once. *)
Theorem handleTick_rewrites_last (event : MarketTickEvent)
    (prev : list ChartCandle) :
  length (handleTick event prev) = length prev /\
  map (fun c => (time (candle c), ts (candle c), open (candle c)))
      (handleTick event prev)
  = map (fun c => (time (candle c), ts (candle c), open (candle c))) prev /\
  removelast (handleTick event prev) = removelast prev /\
  (forall init lastCandle,
     prev = init ++ [lastCandle] ->
     handleTick event prev = init ++ [applyTick event lastCandle]) /\
  handleTick event [] = [] /\
  handleTick event (handleTick event prev) = handleTick event prev.
Proof.
  assert (Hsnoc : forall init lastCandle,
            handleTick event (init ++ [lastCandle])
            = init ++ [applyTick event lastCandle]).
  { induction init as [| c init IH]; intro lastCandle; [reflexivity |].
    destruct init as [| c' init]; [reflexivity |].
    change ((c :: c' :: init) ++ [lastCandle])
      with (c :: (c' :: init) ++ [lastCandle]).
    simpl app at 1. rewrite handleTick_cons.
    change (c' :: init ++ [lastCandle]) with ((c' :: init) ++ [lastCandle]).
    rewrite IH. reflexivity. }
  destruct prev as [| c0 prev0].
  - repeat split. intros [| ? ?] lastCandle H; discriminate H.
  - destruct (@exists_last _ (c0 :: prev0) ltac:(discriminate))
      as (init & lastCandle & ->).
    rewrite !Hsnoc, !length_app, !map_app, !removelast_last, applyTick_twice.
    repeat split.
    intros init' last' H. apply app_inj_tail in H. destruct H as [-> ->].
    reflexivity.
Qed.

Lemma handleTick_rewrites_last_witness :
  handleTick (mkTick (Some (ofZ 12)) None None None)
    [mkChartCandle (Samples.candle (ofZ 200) 10 12 9 11 5) "Jan 1" "10:00"]
  = [] ++ [applyTick (mkTick (Some (ofZ 12)) None None None)
             (mkChartCandle (Samples.candle (ofZ 200) 10 12 9 11 5)
                            "Jan 1" "10:00")].
Proof.
  apply (proj1 (proj2 (proj2 (proj2 (handleTick_rewrites_last _ _))))).
  reflexivity.
Defined.

Lemma call_issues k tf iv force now st :
  exists new,
    issued (snd (getCandleHistory k tf iv force now st)) = issued st ++ new /\
    (length new <= 1)%nat /\
    Forall (fun r => r = requestOf k tf iv now (reqController r)) new.
Proof.
  rewrite call_shape.
  destruct (fst (lookedUp (getCacheKey k tf iv) force now st)).
  - exists []. simpl. rewrite lookedUp_issued, app_nil_r. auto.
  - eexists [_]. simpl snd.
    match goal with
    | |- context [started ?key ?r ?s] =>
        destruct (started_fields key r s) as (_ & Hi & _)
    end.
    rewrite Hi, lookedUp_issued. split; [reflexivity |].
    split; [simpl; lia |]. constructor; [| constructor].
    rewrite requestOf_controller. reflexivity.
Qed.

(** X30: The chart picks the endpoint by the timeframe alone.  For ['1D'] it
    always makes an intraday call, with limit 500 during the session and
    200 outside it, both under the same cache key; for any other timeframe
    it makes a history call.  At most one request is sent. *)
Theorem chart_endpoint_by_timeframe (k : string) (tf : Timeframe)
    (iv : CandleInterval) (force : bool) (now : Z) (f : State) :
  let call := loadCandles k tf iv force now f in
  (tf = TF_1D ->
   call = getCandleIntraday k iv force
            (if isWithinMarketHours now then 500 else 200) now f) /\
  (tf <> TF_1D -> call = getCandleHistory k tf iv force now f) /\
  exists new,
    issued (snd call) = issued f ++ new /\ (length new <= 1)%nat /\
    Forall (fun r => reqInstrument r = k /\
                     reqEndpoint r = match tf with
                                     | TF_1D => CANDLES_INTRADAY
                                     | _ => CANDLES_HISTORY
                                     end) new.
Proof.
  cbv zeta. split; [| split].
  - intros ->. unfold loadCandles.
    destruct (isWithinMarketHours now); reflexivity.
  - intro Hne. unfold loadCandles. destruct tf; [contradiction | ..];
      reflexivity.
  - assert (Hhist : exists new,
              issued (snd (getCandleHistory k tf iv force now f))
              = issued f ++ new /\ (length new <= 1)%nat /\
              Forall (fun r => reqInstrument r = k /\
                               reqEndpoint r = match tf with
                                               | TF_1D => CANDLES_INTRADAY
                                               | _ => CANDLES_HISTORY
                                               end) new).
    { destruct (call_issues k tf iv force now f) as (new & Hi & Hl & Hr).
      exists new. split; [exact Hi |]. split; [exact Hl |].
      eapply List.Forall_impl; [| exact Hr].
      intros r ->. destruct tf; simpl; auto. }
    unfold loadCandles. destruct tf; try exact Hhist.
    destruct (isWithinMarketHours now); [| exact Hhist].
    rewrite intraday_shape.
    destruct (fst (lookedUp (getCacheKey k TF_1D iv) force now f)).
    + exists []. simpl. rewrite lookedUp_issued, app_nil_r. auto.
    + eexists [_]. simpl snd.
      match goal with
      | |- context [started ?key ?r ?s] =>
          destruct (started_fields key r s) as (_ & Hi & _)
      end.
      rewrite Hi, lookedUp_issued. split; [reflexivity |].
      split; [simpl; lia |]. repeat constructor.
Qed.

Lemma chart_endpoint_by_timeframe_witness :
  loadCandles Samples.reliance TF_1D I_5m false Samples.sundayMorning initial
  = getCandleIntraday Samples.reliance I_5m false 200 Samples.sundayMorning
                      initial.
Proof.
  apply (proj1 (chart_endpoint_by_timeframe Samples.reliance TF_1D I_5m false
                  Samples.sundayMorning initial)).
  reflexivity.
Defined.

End ChartLaws.
